(** * Real-estate analytics pipeline: the ETL and reporting functions

    A shallow embedding of the Cloud Functions of the repository
    (normalisation, dimension and fact loading, the storage trigger and the
    analytics report) together with the properties of its specification.

    Conventions of the embedding.
    - A pandas DataFrame is a list of rows, in index order; a column is the
      list of one field.  A missing cell (NaN, NaT, None, pd.NA) is [None].
    - Numeric cells are exact rationals ([Q]); comparisons with a missing
      cell are false, as they are in pandas.
    - Text is a [string] of 8-bit characters; case mapping and white space
      are those Python applies to ASCII text.
    - A timestamp is the number of nanoseconds since 1970-01-01T00:00, the
      value pandas stores.
    - Python exceptions are values of [exn]; a function that may raise
      returns [result].  BigQuery tables are fields of [Warehouse], threaded
      through the functions that load them.
    - [datetime.utcnow()] is an argument of the function that reads it.
    - [df[col].fillna(v, inplace=True)] updates the frame, and a BigQuery
      load job that is started completes. *)

From Stdlib Require Import List String Ascii ZArith NArith QArith Qround Bool Lia.
From Stdlib Require Finite.
Import ListNotations.

Set Implicit Arguments.

Local Open Scope string_scope.

(** ** Exceptions and results *)

Inductive exn : Type :=
| ValueError (msg : string)
| TypeError (msg : string)
| KeyError (msg : string)
| NameError (name : string)
| ExternalError (msg : string).

Inductive result (A : Type) : Type :=
| Ok (a : A)
| Raise (e : exn).

Arguments Ok {A} a.
Arguments Raise {A} e.

Definition bind {A B : Type} (r : result A) (k : A -> result B) : result B :=
  match r with
  | Ok a => k a
  | Raise e => Raise e
  end.

Notation "x <- r ;; k" := (bind r (fun x => k))
  (at level 61, r at next level, right associativity).

(** ** Python string methods *)

Module PyStr.

Definition code (c : ascii) : N := N_of_ascii c.

Definition between (lo hi : N) (c : ascii) : bool :=
  (lo <=? code c)%N && (code c <=? hi)%N.

Definition is_upper (c : ascii) : bool := between 65 90 c.
Definition is_lower (c : ascii) : bool := between 97 122 c.
Definition is_cased (c : ascii) : bool := is_upper c || is_lower c.

(** [str.isspace] on the ASCII range: TAB..CR, FS..US and the space. *)
Definition is_space (c : ascii) : bool :=
  between 9 13 c || between 28 32 c.

Definition lower_char (c : ascii) : ascii :=
  if is_upper c then ascii_of_N (code c + 32) else c.

Definition upper_char (c : ascii) : ascii :=
  if is_lower c then ascii_of_N (code c - 32) else c.

(** [s.lower()] *)
Fixpoint lower (s : string) : string :=
  match s with
  | EmptyString => EmptyString
  | String c t => String (lower_char c) (lower t)
  end.

Fixpoint lstrip (s : string) : string :=
  match s with
  | EmptyString => EmptyString
  | String c t => if is_space c then lstrip t else s
  end.

Fixpoint rstrip (s : string) : string :=
  match s with
  | EmptyString => EmptyString
  | String c t =>
      match rstrip t with
      | EmptyString => if is_space c then EmptyString else String c EmptyString
      | t' => String c t'
      end
  end.

(** [s.strip()] *)
Definition strip (s : string) : string := rstrip (lstrip s).

(** [s.title()]: a cased character is upper-cased when the character before
    it is not cased, lower-cased otherwise. *)
Fixpoint title_from (previous_is_cased : bool) (s : string) : string :=
  match s with
  | EmptyString => EmptyString
  | String c t =>
      String (if previous_is_cased then lower_char c else upper_char c)
             (title_from (is_cased c) t)
  end.

Definition title (s : string) : string := title_from false s.

(** [sub in s] *)
Fixpoint contains (sub s : string) : bool :=
  if prefix sub s then true
  else match s with
       | EmptyString => false
       | String _ t => contains sub t
       end.

Fixpoint rev_acc (s acc : string) : string :=
  match s with
  | EmptyString => acc
  | String c t => rev_acc t (String c acc)
  end.

Definition rev (s : string) : string := rev_acc s EmptyString.

(** [s.endswith(suffix)] *)
Definition endswith (s suffix : string) : bool :=
  prefix (rev suffix) (rev s).

Definition comma : ascii := ","%char.

(** [s.split(',', 1)]: the text before the first comma and, when there is
    a comma, the text after it. *)
Fixpoint split_comma (s : string) : string * option string :=
  match s with
  | EmptyString => (EmptyString, None)
  | String c t =>
      if Ascii.eqb c comma then (EmptyString, Some t)
      else let (a, b) := split_comma t in (String c a, b)
  end.

End PyStr.

(** ** Numeric columns (pandas Series of float64) *)

Module Num.

Local Open Scope Q_scope.

Definition Qltb (a b : Q) : bool := negb (Qle_bool b a).

(** Comparisons of a cell with a number; a missing cell compares false. *)
Definition gt (x : option Q) (b : Q) : bool :=
  match x with Some a => Qltb b a | None => false end.

Definition lt (x : option Q) (b : Q) : bool :=
  match x with Some a => Qltb a b | None => false end.

Definition ge (x : option Q) (b : Q) : bool :=
  match x with Some a => Qle_bool b a | None => false end.

(** The cells of a column that are present ([Series.dropna]). *)
Fixpoint present (col : list (option Q)) : list Q :=
  match col with
  | [] => []
  | Some a :: t => a :: present t
  | None :: t => present t
  end.

Definition isna_sum (col : list (option Q)) : nat :=
  List.length (List.filter (fun x => match x with None => true | Some _ => false end) col).

Fixpoint insert (a : Q) (l : list Q) : list Q :=
  match l with
  | [] => [a]
  | b :: t => if Qle_bool a b then a :: l else b :: insert a t
  end.

Fixpoint sort (l : list Q) : list Q :=
  match l with
  | [] => []
  | a :: t => insert a (sort t)
  end.

(** [Series.median()]: missing cells are skipped; NaN on an empty column. *)
Definition median (col : list (option Q)) : option Q :=
  let s := sort (present col) in
  let n := List.length s in
  match n with
  | O => None
  | _ =>
      if Nat.odd n then Some (nth (Nat.div n 2) s 0)
      else Some ((nth (Nat.div n 2 - 1) s 0 + nth (Nat.div n 2) s 0) / 2)
  end.

(** [Series.quantile(q)] with the default linear interpolation: the value
    at the fractional position (n-1)*q of the sorted present cells. *)
Definition quantile (q : Q) (col : list (option Q)) : option Q :=
  let s := sort (present col) in
  match s with
  | [] => None
  | _ =>
      let pos := inject_Z (Z.of_nat (List.length s) - 1) * q in
      let lo := Qfloor pos in
      let frac := pos - inject_Z lo in
      let a := nth (Z.to_nat lo) s 0 in
      let b := nth (Z.to_nat (Qceiling pos)) s 0 in
      Some (a + (b - a) * frac)
  end.

(** [Series.fillna(v)]; filling with NaN changes nothing. *)
Definition fillna (v : option Q) (x : option Q) : option Q :=
  match x with
  | Some a => Some a
  | None => v
  end.

(** Rounding to the nearest integer, halves to the even one ([numpy.rint]). *)
Definition rint (x : Q) : Z :=
  let f := Qfloor x in
  let r := x - inject_Z f in
  if Qltb r (1 # 2) then f
  else if Qltb (1 # 2) r then (f + 1)%Z
  else if Z.even f then f else (f + 1)%Z.

(** [Series.round(2)] *)
Definition round2 (x : Q) : Q := inject_Z (rint (x * 100)) / 100.

(** Division of two cells.  Dividing by zero gives inf or NaN in pandas,
    which the embedding does not hold: the result is then missing. *)
Definition div (x y : option Q) : option Q :=
  match x, y with
  | Some a, Some b => if Qeq_bool b 0 then None else Some (a / b)
  | _, _ => None
  end.

Definition count (a : Q) (l : list Q) : nat :=
  List.length (List.filter (Qeq_bool a) l).

(** [Series.mode()[0]]: the most frequent present value, the smallest one
    when several are; [None] when the column has no present cell (the
    lookup of index 0 then raises). *)
Definition mode (col : list (option Q)) : option Q :=
  let s := sort (present col) in
  List.fold_left (fun best a =>
                    match best with
                    | None => Some a
                    | Some b => if (count b s <? count a s)%nat then Some a else Some b
                    end) s None.

Definition is_integer (x : Q) : bool :=
  (Z.modulo (Qnum x) (Zpos (Qden x)) =? 0)%Z.

Definition to_int (x : Q) : Z := Qfloor x.

End Num.

(** ** Timestamps and the calendar *)

Module Calendar.

Local Open Scope Z_scope.

(** Nanoseconds since the epoch. *)
Definition Timestamp : Type := Z.

Definition day_ns : Z := 86400 * 1000000000.

(** Day number of a timestamp: days since 1970-01-01. *)
Definition days_of (t : Timestamp) : Z := t / day_ns.

Definition time_of_day (t : Timestamp) : Z := t mod day_ns.

Definition midnight (day : Z) : Timestamp := day * day_ns.

(** Proleptic Gregorian date (year, month, day) of a day number. *)
Definition civil_from_days (z : Z) : Z * Z * Z :=
  let z := z + 719468 in
  let era := z / 146097 in
  let doe := z - era * 146097 in
  let yoe := (doe - doe / 1460 + doe / 36524 - doe / 146096) / 365 in
  let y := yoe + era * 400 in
  let doy := doe - (365 * yoe + yoe / 4 - yoe / 100) in
  let mp := (5 * doy + 2) / 153 in
  let d := doy - (153 * mp + 2) / 5 + 1 in
  let m := if mp <? 10 then mp + 3 else mp - 9 in
  (if m <=? 2 then y + 1 else y, m, d).

(** Day number of a date: the inverse of [civil_from_days]. *)
Definition days_from_civil (y m d : Z) : Z :=
  let y := if m <=? 2 then y - 1 else y in
  let era := y / 400 in
  let yoe := y - era * 400 in
  let doy := (153 * (if 2 <? m then m - 3 else m + 9) + 2) / 5 + d - 1 in
  let doe := yoe * 365 + yoe / 4 - yoe / 100 + doy in
  era * 146097 + doe - 719468.

Definition year (t : Timestamp) : Z :=
  let '(y, _, _) := civil_from_days (days_of t) in y.

Definition month (t : Timestamp) : Z :=
  let '(_, m, _) := civil_from_days (days_of t) in m.

Definition day (t : Timestamp) : Z :=
  let '(_, _, d) := civil_from_days (days_of t) in d.

(** The integer YYYYMMDD of a day number. *)
Definition yyyymmdd (z : Z) : Z :=
  let '(y, m, d) := civil_from_days z in y * 10000 + m * 100 + d.

(** [ts.strftime('%Y%m%d')] read as an integer. *)
Definition strftime_Ymd_int (t : Timestamp) : Z := yyyymmdd (days_of t).

Definition quarter (t : Timestamp) : Z := (month t - 1) / 3 + 1.

(** Monday = 0 .. Sunday = 6; 1970-01-01 was a Thursday. *)
Definition dayofweek (t : Timestamp) : Z := (days_of t + 3) mod 7.

Definition month_names : list string :=
  ["January"; "February"; "March"; "April"; "May"; "June"; "July";
   "August"; "September"; "October"; "November"; "December"]%string.

Definition day_names : list string :=
  ["Monday"; "Tuesday"; "Wednesday"; "Thursday"; "Friday"; "Saturday";
   "Sunday"]%string.

Definition month_name (t : Timestamp) : string :=
  nth (Z.to_nat (month t - 1)) month_names EmptyString.

Definition day_name (t : Timestamp) : string :=
  nth (Z.to_nat (dayofweek t)) day_names EmptyString.

(** [pd.date_range(start, end, freq='D')]: start, start + 1 day, ... while
    not after end; the time of day of [start] is kept. *)
Definition date_range (start stop : Timestamp) : list Timestamp :=
  List.map (fun k => start + Z.of_nat k * day_ns)
           (seq 0 (Z.to_nat ((stop - start) / day_ns + 1))).

Fixpoint minimum (l : list Timestamp) : option Timestamp :=
  match l with
  | [] => None
  | a :: t => match minimum t with
              | None => Some a
              | Some b => Some (Z.min a b)
              end
  end.

Fixpoint maximum (l : list Timestamp) : option Timestamp :=
  match l with
  | [] => None
  | a :: t => match maximum t with
              | None => Some a
              | Some b => Some (Z.max a b)
              end
  end.

(** 2024-01-15 is day 19737. *)
Definition ymd_hms (days h m s : Z) : Timestamp :=
  days * day_ns + ((h * 60 + m) * 60 + s) * 1000000000.

End Calendar.

(** ** Listings *)

(** A row of the listings frame.  [D] is the type of a [list_date] cell, [S]
    of a text cell and [B] of a [bedrooms] cell; they change as the
    normaliser parses dates, fills text and casts bedrooms to Int64. *)
Record Listing (D S B : Type) : Type := mkListing {
  list_date : D;
  location : S;
  property_type : S;
  price : option Q;
  sqft : option Q;
  bedrooms : B;
  bathrooms : option Q;
  listing_status : option string;
  lot_size : option Q
}.

(** The frame read from the CSV, with [list_date] as [pd.to_datetime(...,
    errors='coerce')] converts it ([None] is NaT), and whether the optional
    columns exist. *)
Record RawFrame : Type := mkRawFrame {
  rows : list (Listing (option Calendar.Timestamp) (option string) (option Q));
  has_listing_status : bool;
  has_lot_size : bool
}.

(** A row of the normalised frame: the cleaned columns and the derived ones. *)
Record NormRow : Type := mkNormRow {
  cols : Listing Calendar.Timestamp string (option Z);
  price_per_sqft : option Q;
  location_key : string;
  property_type_key : string;
  date_key : Z;
  created_at : Calendar.Timestamp;
  updated_at : Calendar.Timestamp
}.

(** ** cloud-functions/etl-function/transform.py *)

Module Transform.

Import PyStr Num Calendar.
Local Open Scope Q_scope.

Section Columns.
Context {D S B : Type}.
Definition set_price (v : option Q) (r : Listing D S B) : Listing D S B :=
  mkListing (list_date r) (location r) (property_type r) v (sqft r)
            (bedrooms r) (bathrooms r) (listing_status r) (lot_size r).
Definition set_sqft (v : option Q) (r : Listing D S B) : Listing D S B :=
  mkListing (list_date r) (location r) (property_type r) (price r) v
            (bedrooms r) (bathrooms r) (listing_status r) (lot_size r).
Definition set_bathrooms (v : option Q) (r : Listing D S B) : Listing D S B :=
  mkListing (list_date r) (location r) (property_type r) (price r) (sqft r)
            (bedrooms r) v (listing_status r) (lot_size r).
Definition set_bedrooms {B' : Type} (v : B') (r : Listing D S B) : Listing D S B' :=
  mkListing (list_date r) (location r) (property_type r) (price r) (sqft r)
            v (bathrooms r) (listing_status r) (lot_size r).
Definition set_text {S' : Type} (loc ty : S') (r : Listing D S B) : Listing D S' B :=
  mkListing (list_date r) loc ty (price r) (sqft r)
            (bedrooms r) (bathrooms r) (listing_status r) (lot_size r).
Definition set_list_date {D' : Type} (d : D') (r : Listing D S B) : Listing D' S B :=
  mkListing d (location r) (property_type r) (price r) (sqft r)
            (bedrooms r) (bathrooms r) (listing_status r) (lot_size r).
End Columns.

(** Step 1: rows whose date did not parse are removed. *)
Definition standardize_dates {S B : Type}
    (df : list (Listing (option Timestamp) S B)) : list (Listing Timestamp S B) :=
  flat_map (fun r => match list_date r with
                     | Some d => [set_list_date d r]
                     | None => []
                     end) df.

(** Step 2: [if missing_count > 0: df[col].fillna(df[col].median())]. *)
Definition impute_median (col : list (option Q)) (x : option Q) : option Q :=
  if (0 <? isna_sum col)%nat then fillna (median col) x else x.

Definition handle_missing {D S : Type}
    (df : list (Listing D S (option Q))) : list (Listing D S (option Q)) :=
  let df1 := List.map (fun r => set_price (impute_median (List.map (@price _ _ _) df) (price r)) r) df in
  let df2 := List.map (fun r => set_sqft (impute_median (List.map (@sqft _ _ _) df1) (sqft r)) r) df1 in
  let df3 := List.map (fun r => set_bedrooms (impute_median (List.map (@bedrooms _ _ _) df2) (bedrooms r)) r) df2 in
  List.map (fun r => set_bathrooms (impute_median (List.map (@bathrooms _ _ _) df3) (bathrooms r)) r) df3.

(** [fillna('Unknown')] *)
Definition fill_unknown (x : option string) : string :=
  match x with
  | Some s => s
  | None => "Unknown"%string
  end.

(** Step 3: [.str.strip().str.title()] on the filled text columns. *)
Definition standardize_text {D B : Type}
    (df : list (Listing D (option string) B)) : list (Listing D string B) :=
  List.map (fun r => set_text (title (strip (fill_unknown (location r))))
                              (title (strip (fill_unknown (property_type r)))) r) df.

(** [astype('Int64')] of one cell: a missing cell stays missing, a number
    with a fractional part cannot be cast. *)
Definition to_Int64 (x : option Q) : result (option Z) :=
  match x with
  | None => Ok None
  | Some a =>
      if is_integer a then Ok (Some (to_int a))
      else Raise (TypeError "cannot safely cast non-equivalent float64 to int64")
  end.

Fixpoint astype_Int64 {D S : Type} (df : list (Listing D S (option Q)))
    : result (list (Listing D S (option Z))) :=
  match df with
  | [] => Ok []
  | r :: t =>
      b <- to_Int64 (bedrooms r) ;;
      t' <- astype_Int64 t ;;
      Ok (set_bedrooms b r :: t')
  end.

Definition notna (x : option Q) : bool :=
  match x with Some _ => true | None => false end.

(** Step 4: the casts, then [dropna(subset=['price', 'sqft'])]. *)
Definition convert_types {D S : Type} (df : list (Listing D S (option Q)))
    : result (list (Listing D S (option Z))) :=
  df' <- astype_Int64 df ;;
  Ok (List.filter (fun r => notna (price r) && notna (sqft r)) df').

(** Arithmetic on cells that may be NaN. *)
Definition lift2 (f : Q -> Q -> Q) (x y : option Q) : option Q :=
  match x, y with
  | Some a, Some b => Some (f a b)
  | _, _ => None
  end.

Definition lower_bound (col : list (option Q)) : option Q :=
  let Q1 := quantile (1 # 4) col in
  let Q3 := quantile (3 # 4) col in
  let IQR := lift2 Qminus Q3 Q1 in
  lift2 Qminus Q1 (lift2 Qmult (Some (3 # 2)) IQR).

Definition upper_bound (col : list (option Q)) : option Q :=
  let Q1 := quantile (1 # 4) col in
  let Q3 := quantile (3 # 4) col in
  let IQR := lift2 Qminus Q3 Q1 in
  lift2 Qplus Q3 (lift2 Qmult (Some (3 # 2)) IQR).

Definition cell_lt (x y : option Q) : bool :=
  match y with Some b => lt x b | None => false end.

Definition cell_gt (x y : option Q) : bool :=
  match y with Some b => gt x b | None => false end.

Definition outliers_mask {D S B : Type} (df : list (Listing D S B))
    (r : Listing D S B) : bool :=
  let col := List.map (@price _ _ _) df in
  cell_lt (price r) (lower_bound col) || cell_gt (price r) (upper_bound col).

(** Step 5: [if outliers_count > 0: df = df[~outliers_mask]]. *)
Definition remove_outliers {D S B : Type} (df : list (Listing D S B))
    : list (Listing D S B) :=
  if (0 <? List.length (List.filter (outliers_mask df) df))%nat
  then List.filter (fun r => negb (outliers_mask df r)) df
  else df.

Definition int_ge0 (x : option Z) : bool :=
  match x with Some b => (0 <=? b)%Z | None => false end.

(** "Also ensure reasonable minimums": four successive filters. *)
Definition ensure_minimums {D S : Type} (df : list (Listing D S (option Z)))
    : list (Listing D S (option Z)) :=
  let df1 := List.filter (fun r => gt (price r) 0) df in
  let df2 := List.filter (fun r => gt (sqft r) 0) df1 in
  let df3 := List.filter (fun r => int_ge0 (bedrooms r)) df2 in
  List.filter (fun r => gt (bathrooms r) 0) df3.

Definition set_optional (has_status has_lot : bool)
    (r : Listing Timestamp string (option Z)) : Listing Timestamp string (option Z) :=
  mkListing (list_date r) (location r) (property_type r) (price r) (sqft r)
            (bedrooms r) (bathrooms r)
            (if has_status then listing_status r else Some "Active"%string)
            (if has_lot then lot_size r else None).

(** Steps 6 to 8: derived fields, dimension keys and metadata of one row. *)
Definition derive (has_status has_lot : bool) (created updated : Timestamp)
    (r : Listing Timestamp string (option Z)) : NormRow :=
  {| cols := set_optional has_status has_lot r;
     price_per_sqft := option_map round2 (div (price r) (sqft r));
     location_key := location r;
     property_type_key := property_type r;
     date_key := strftime_Ymd_int (list_date r);
     created_at := created;
     updated_at := updated |}.

(** The frame as it stands just before the outliers are removed. *)
Definition before_outliers (df : RawFrame)
    : result (list (Listing Timestamp string (option Z))) :=
  convert_types (standardize_text (handle_missing (standardize_dates (rows df)))).

(** The rows the pipeline keeps, before the final validation. *)
Definition surviving (df : RawFrame) (created updated : Timestamp)
    : result (list NormRow) :=
  df4 <- before_outliers df ;;
  Ok (List.map (derive (has_listing_status df) (has_lot_size df) created updated)
               (ensure_minimums (remove_outliers df4))).

(** [normalize_dataframe(df)]; [created] and [updated] are the two readings
    of the clock. *)
Definition normalize_dataframe (df : RawFrame) (created updated : Timestamp)
    : result (list NormRow) :=
  out <- surviving df created updated ;;
  if (List.length out =? 0)%nat
  then Raise (ValueError "All rows were filtered out during transformation!")
  else Ok out.

End Transform.

(** ** The warehouse: the four BigQuery tables *)

Module DimLocation.
Record row : Type := mk {
  location_id : Z;
  location : string;
  city : string;
  state : option string;
  zip_code : option string;
  region : string;
  created_at : Calendar.Timestamp
}.

(** The columns of a row other than its creation time. *)
Definition attributes (r : row) : Z * string * string * option string * option string * string :=
  (location_id r, location r, city r, state r, zip_code r, region r).
End DimLocation.

Module DimPropertyType.
Record row : Type := mk {
  property_type_id : Z;
  property_type : string;
  type_name : string;
  category : string;
  created_at : Calendar.Timestamp
}.

(** The columns of a row other than its creation time. *)
Definition attributes (r : row) : Z * string * string * string :=
  (property_type_id r, property_type r, type_name r, category r).
End DimPropertyType.

Module DimDate.
Record row : Type := mk {
  full_date : Calendar.Timestamp;
  date_id : Z;
  year : Z;
  month : Z;
  month_name : string;
  quarter : Z;
  day_of_week : Z;
  day_name : string;
  is_weekend : bool
}.
End DimDate.

Module Fact.
Record row : Type := mk {
  listing_id : Z;
  location_id : option Z;
  property_type_id : option Z;
  date_id : option Z;
  list_date : Calendar.Timestamp;
  listing_status : option string;
  price : option Q;
  bedrooms : option Z;
  bathrooms : option Q;
  sqft : option Q;
  lot_size : option Q;
  price_per_sqft : option Q;
  created_at : Calendar.Timestamp;
  updated_at : Calendar.Timestamp
}.
End Fact.

Record Warehouse : Type := mkWarehouse {
  dim_location : list DimLocation.row;
  dim_property_type : list DimPropertyType.row;
  dim_date : list DimDate.row;
  fact_listings : list Fact.row
}.

(** The dictionary [dim_tables] returned by the dimension builder. *)
Record DimTables : Type := mkDimTables {
  dt_location : list DimLocation.row;
  dt_property_type : list DimPropertyType.row;
  dt_date : list DimDate.row
}.

(** ** cloud-functions/etl-function/load.py *)

Module Load.

Import PyStr Calendar.
Local Open Scope Z_scope.

(** [drop_duplicates()]: the first occurrence of each value, in order. *)
Fixpoint drop_duplicates (l : list string) : list string :=
  match l with
  | [] => []
  | x :: t => x :: List.filter (fun y => negb (String.eqb x y)) (drop_duplicates t)
  end.

(** [range(1, len(l) + 1)] paired with the rows. *)
Fixpoint number_from {A : Type} (start : Z) (l : list A) : list (Z * A) :=
  match l with
  | [] => []
  | x :: t => (start, x) :: number_from (start + 1) t
  end.

(** City and state of one location; [any_comma] says whether some location
    of the batch contains a comma. *)
Definition parse_location (any_comma : bool) (loc : string) : string * option string :=
  if any_comma
  then let (c, s) := split_comma loc in (strip c, option_map strip s)
  else (loc, None).

Definition location_rows (df : list NormRow) (now : Timestamp) : list DimLocation.row :=
  let locations := drop_duplicates (List.map (fun r => location (cols r)) df) in
  let any_comma := existsb (contains ",") locations in
  List.map (fun '(i, loc) =>
              let (c, s) := parse_location any_comma loc in
              DimLocation.mk i loc c s None "UAE" now)
           (number_from 1 locations).

(** [categorize_property] *)
Definition categorize_property (type_name : string) : string :=
  let type_lower := lower type_name in
  if contains "apartment" type_lower || contains "flat" type_lower
     || contains "studio" type_lower
  then "Residential-Apartment"
  else if contains "villa" type_lower || contains "house" type_lower
  then "Residential-House"
  else if contains "townhouse" type_lower
  then "Residential-Townhouse"
  else if contains "penthouse" type_lower
  then "Residential-Luxury"
  else "Other".

Definition property_type_rows (df : list NormRow) (now : Timestamp)
    : list DimPropertyType.row :=
  let property_types := drop_duplicates (List.map (fun r => property_type (cols r)) df) in
  List.map (fun '(i, ty) => DimPropertyType.mk i ty ty (categorize_property ty) now)
           (number_from 1 property_types).

Definition date_row (d : Timestamp) : DimDate.row :=
  let dow := dayofweek d in
  DimDate.mk d (strftime_Ymd_int d) (Calendar.year d) (Calendar.month d)
             (Calendar.month_name d) (Calendar.quarter d) dow
             (Calendar.day_name d) ((dow =? 5) || (dow =? 6)).

Definition date_rows (min_date max_date : Timestamp) : list DimDate.row :=
  List.map date_row (date_range min_date max_date).

Definition load_dim_location (t : list DimLocation.row) (w : Warehouse) : Warehouse :=
  mkWarehouse t (dim_property_type w) (dim_date w) (fact_listings w).

Definition load_dim_property_type (t : list DimPropertyType.row) (w : Warehouse) : Warehouse :=
  mkWarehouse (dim_location w) t (dim_date w) (fact_listings w).

Definition load_dim_date (t : list DimDate.row) (w : Warehouse) : Warehouse :=
  mkWarehouse (dim_location w) (dim_property_type w) t (fact_listings w).

(** [create_dimension_tables(df, client, project_id, dataset_id)].  Each
    table is written with WRITE_TRUNCATE as soon as it is built;
    [now_location] and [now_type] are the two readings of the clock.  On
    an empty frame the minimum date is NaT and [pd.date_range] raises,
    after the first two tables are written. *)
Definition create_dimension_tables (df : list NormRow)
    (now_location now_type : Timestamp) (w : Warehouse)
    : Warehouse * result DimTables :=
  let locations := location_rows df now_location in
  let w1 := load_dim_location locations w in
  let property_types := property_type_rows df now_type in
  let w2 := load_dim_property_type property_types w1 in
  let dates_col := List.map (fun r => list_date (cols r)) df in
  match minimum dates_col, maximum dates_col with
  | Some min_date, Some max_date =>
      let dates := date_rows min_date max_date in
      (load_dim_date dates w2, Ok (mkDimTables locations property_types dates))
  | _, _ => (w2, Raise (ValueError "Neither `start` nor `end` can be NaT"))
  end.

(** [left.merge(right, how='left')] on one key: a left row is repeated for
    each matching right row, and kept once with a missing value when no
    right row matches. *)
Definition merge_left {A K V : Type} (eqb : K -> K -> bool)
    (left : list A) (key : A -> K) (right : list (K * V)) : list (A * option V) :=
  flat_map (fun a =>
              match List.filter (fun kv => eqb (key a) (fst kv)) right with
              | [] => [(a, None)]
              | ms => List.map (fun kv => (a, Some (snd kv))) ms
              end) left.

Definition fact_row (i : Z) (j : NormRow * option Z * option Z * option Z) : Fact.row :=
  let '(r, loc_id, type_id, d_id) := j in
Fact.mk i loc_id type_id d_id (list_date (cols r)) (listing_status (cols r))
        (price (cols r)) (bedrooms (cols r)) (bathrooms (cols r)) (sqft (cols r))
        (lot_size (cols r)) (price_per_sqft r) (created_at r) (updated_at r).

(** The frame [fact_df] after the three joins and the numbering. *)
Definition fact_rows (df : list NormRow) (dim_tables : DimTables) : list Fact.row :=
  let j1 := merge_left String.eqb df (fun r => location (cols r))
              (List.map (fun d => (DimLocation.location d, DimLocation.location_id d))
                        (dt_location dim_tables)) in
  let j2 := merge_left String.eqb j1 (fun j => property_type (cols (fst j)))
              (List.map (fun d => (DimPropertyType.property_type d,
                                   DimPropertyType.property_type_id d))
                        (dt_property_type dim_tables)) in
  let j3 := merge_left Z.eqb j2 (fun j => strftime_Ymd_int (list_date (cols (fst (fst j)))))
              (List.map (fun d => (DimDate.date_id d, DimDate.date_id d))
                        (dt_date dim_tables)) in
  List.map (fun '(i, j) => fact_row i j) (number_from 1 j3).

(** [load_fact_table(...)]: the rows are appended (WRITE_APPEND) and their
    number returned. *)
Definition load_fact_table (df : list NormRow) (dim_tables : DimTables)
    (w : Warehouse) : Warehouse * result Z :=
  let fact_df := fact_rows df dim_tables in
  (mkWarehouse (dim_location w) (dim_property_type w) (dim_date w)
               (fact_listings w ++ fact_df)%list,
   Ok (Z.of_nat (List.length fact_df))).

End Load.

(** ** The storage trigger *)

(** The Cloud Storage event: the fields of [cloud_event.data] that are read. *)
Record Event : Type := mkEvent {
  bucket : string;
  name : string
}.

(** What [pd.read_csv] returns: the column names and the frame. *)
Record Csv : Type := mkCsv {
  columns : list string;
  frame : RawFrame
}.

(** A name used in a function body is looked up among the names the module
    binds (its imports and top-level definitions). *)
Definition lookup_global (module_globals : list string) (x : string) : result unit :=
  if existsb (String.eqb x) module_globals then Ok tt else Raise (NameError x).

Definition missing_columns (required present : list string) : list string :=
  List.filter (fun c => negb (existsb (String.eqb c) present)) required.

(** *** cloud-functions/etl-function/main.py *)

Module EtlMain.

Import PyStr Calendar.

Definition module_globals : list string :=
  ["functions_framework"; "storage"; "bigquery"; "pd"; "io"; "os"; "datetime";
   "normalize_dataframe"; "create_dimension_tables"; "load_fact_table";
   "storage_client"; "bigquery_client"; "PROJECT_ID"; "DATASET_ID"; "process_csv"].

Definition required_columns : list string :=
  ["list_date"; "location"; "property_type"; "price"; "bedrooms"; "bathrooms"; "sqft"].

Section Invocation.

(** [blob.download_as_text()] of an object of a bucket. *)
Variable download_as_text : string -> string -> result string.
(** [pd.read_csv] of a text. *)
Variable read_csv : string -> result Csv.
(** The successive readings of [datetime.utcnow()] in one invocation. *)
Variable utcnow : nat -> Timestamp.

(** Download, parse, validate the schema and normalise: nothing is
    written yet. *)
Definition extract_transform (event : Event) : result (list NormRow) :=
  content <- download_as_text (bucket event) (name event) ;;
  _ <- lookup_global module_globals "pd" ;;
  _ <- lookup_global module_globals "io" ;;
  df <- read_csv content ;;
  match missing_columns required_columns (columns df) with
  | [] => Transform.normalize_dataframe (frame df) (utcnow 0) (utcnow 1)
  | _ :: _ => Raise (ValueError "Missing required columns")
  end.

(** [process_csv(cloud_event)]: an exception is printed and raised
    again; the tables are left as they were when it occurred. *)
Definition process_csv (event : Event) (w : Warehouse)
    : Warehouse * result (string * Z) :=
  if negb (endswith (lower (name event)) ".csv")
  then (w, Ok ("Not a CSV file", 200%Z))
  else
    match extract_transform event with
    | Raise e => (w, Raise e)
    | Ok normalized_df =>
        let (w1, r1) := Load.create_dimension_tables normalized_df
                          (utcnow 2) (utcnow 3) w in
        match r1 with
        | Raise e => (w1, Raise e)
        | Ok dim_tables =>
            let (w2, r2) := Load.load_fact_table normalized_df dim_tables w1 in
            match r2 with
            | Raise e => (w2, Raise e)
            | Ok _ => (w2, Ok ("Success", 200%Z))
            end
        end
    end.

End Invocation.

End EtlMain.

(** *** main.py, the second entry point *)

Module LegacyMain.

Import PyStr.

(** The names main.py binds: it has no [import io]. *)
Definition module_globals : list string :=
  ["functions_framework"; "storage"; "bigquery"; "pd";
   "normalize_dataframe"; "create_dimension_tables"; "load_fact_table"; "os";
   "storage_client"; "bigquery_client"; "PROJECT_ID"; "DATASET_ID"; "process_csv"].

Section Invocation.

Variables Norm Dims : Type.
Variable download_as_text : string -> string -> result string.
Variable read_csv : string -> result Csv.
(** The functions main.py imports from [transform] and [load]. *)
Variable normalize_dataframe : Csv -> result Norm.
Variable create_dimension_tables : Norm -> Warehouse -> Warehouse * result Dims.
Variable load_fact_table : Norm -> Dims -> Warehouse -> Warehouse * result Z.

(** The statements of the [try] block before the load. *)
Definition extract_transform (event : Event) : result Norm :=
  content <- download_as_text (bucket event) (name event) ;;
  _ <- lookup_global module_globals "pd" ;;
  _ <- lookup_global module_globals "io" ;;
  df <- read_csv content ;;
  normalize_dataframe df.

(** [process_csv(cloud_event)]; [None] is the bare [return]. *)
Definition process_csv (event : Event) (w : Warehouse)
    : Warehouse * result (option (string * Z)) :=
  if negb (endswith (name event) ".csv")
  then (w, Ok None)
  else
    match extract_transform event with
    | Raise e => (w, Raise e)
    | Ok normalized_df =>
        let (w1, r1) := create_dimension_tables normalized_df w in
        match r1 with
        | Raise e => (w1, Raise e)
        | Ok dim_tables =>
            let (w2, r2) := load_fact_table normalized_df dim_tables w1 in
            match r2 with
            | Raise e => (w2, Raise e)
            | Ok _ => (w2, Ok (Some ("Success", 200%Z)))
            end
        end
    end.

End Invocation.

End LegacyMain.

(** ** cloud-functions/analytics-function/main.py *)

Module Analytics.

(** A value of a query result. *)
Inductive value : Type :=
| VNull
| VInt (n : Z)
| VNum (x : Q)
| VText (s : string).

(** A record of [df.to_dict(orient='records')]. *)
Definition record : Type := list (string * value).

(** An entry of [results]: the records, or the dictionary
    [{'error': str(e)}]. *)
Inductive entry : Type :=
| Records (rs : list record)
| ErrorDict (msg : string).

Definition results : Type := list (string * entry).

(** The keys of the dictionary [queries], in order. *)
Definition queries : list string :=
  ["summary_stats"; "monthly_trends"; "location_analysis";
   "property_type_distribution"; "price_correlations"; "top_10_expensive";
   "bedroom_distribution"; "price_brackets"].

Definition str_exn (e : exn) : string :=
  match e with
  | ValueError m | TypeError m | KeyError m | NameError m | ExternalError m => m
  end.

Fixpoint lookup {V : Type} (k : string) (d : list (string * V)) : option V :=
  match d with
  | [] => None
  | (k', v) :: t => if String.eqb k k' then Some v else lookup k t
  end.

(** A replacement field of an f-string: the format specification and the
    value it formats. *)
Inductive field : Type :=
| Fmt (spec : string) (v : value).

(** A section of the report: its heading and its lines of fields. *)
Record section : Type := mkSection {
  heading : string;
  lines : list (list field)
}.

Record report : Type := mkReport {
  generated : string;
  sections : list section
}.

(** A numeric format specification applied to None or to text raises. *)
Definition format (spec : string) (v : value) : result field :=
  match v with
  | VInt _ | VNum _ => Ok (Fmt spec v)
  | VNull => if String.eqb spec "" then Ok (Fmt spec v)
             else Raise (TypeError "unsupported format string passed to NoneType.__format__")
  | VText _ => if String.eqb spec "" then Ok (Fmt spec v)
               else Raise (ValueError "Unknown format code for object of type 'str'")
  end.

(** [row[key]] *)
Definition getitem (row : record) (key : string) : result value :=
  match lookup key row with
  | Some v => Ok v
  | None => Raise (KeyError key)
  end.

(** The fields [{row[key]:spec}] of one line. *)
Fixpoint format_line (row : record) (fields : list (string * string))
    : result (list field) :=
  match fields with
  | [] => Ok []
  | (key, spec) :: t =>
      v <- getitem row key ;;
      f <- format spec v ;;
      fs <- format_line row t ;;
      Ok (f :: fs)
  end.

Fixpoint mapM {A B : Type} (f : A -> result B) (l : list A) : result (list B) :=
  match l with
  | [] => Ok []
  | a :: t => b <- f a ;; bs <- mapM f t ;; Ok (b :: bs)
  end.

(** [bool(results[name])]: a list is true when it has a record; the error
    dictionary has one key and is true. *)
Definition truthy (e : entry) : bool :=
  match e with
  | Records [] => false
  | Records (_ :: _) => true
  | ErrorDict _ => true
  end.

(** [results[name][0]]: the first record of a list; the error dictionary
    has no key 0. *)
Definition first (e : entry) : result record :=
  match e with
  | Records (r :: _) => Ok r
  | Records [] => Raise (KeyError "list index out of range")
  | ErrorDict _ => Raise (KeyError "0")
  end.

(** [for row in results[name]: ... row[key] ...]: iterating the error
    dictionary yields its key, a string, and indexing a string with a
    string raises. *)
Definition table (e : entry) (line : record -> result (list field))
    : result (list (list field)) :=
  match e with
  | Records rs => mapM line rs
  | ErrorDict _ => Raise (TypeError "string indices must be integers")
  end.

(** [if name in results and results[name]: <body>] *)
Definition when_present (res : results) (name : string)
    (body : entry -> result section) : result (list section) :=
  match lookup name res with
  | Some e => if truthy e then s <- body e ;; Ok [s] else Ok []
  | None => Ok []
  end.

(** [stats.get(key, 0)] with its format: [,.0f] after a prefix, [,.1f]
    without. *)
Definition metric (stats : record) (m : string * string) : result field :=
  let (key, prefix) := m in
  let v := match lookup key stats with Some v => v | None => VInt 0 end in
  format (if String.eqb prefix "" then ",.1f" else ",.0f") v.

Definition metrics : list (string * string) :=
  [("total_listings", ""); ("avg_price", "$"); ("avg_price_per_sqft", "$");
   ("avg_sqft", ""); ("avg_bedrooms", "")].

(** The label of a bedroom count: [row['bedrooms'] > 0] compares with an
    integer. *)
Definition bedrooms_label (row : record) : result field :=
  v <- getitem row "bedrooms" ;;
  match v with
  | VInt _ | VNum _ => Ok (Fmt "" v)
  | VNull | VText _ => Raise (TypeError "'>' not supported")
  end.

(** [generate_html_report(results, timestamp)] *)
Definition generate_html_report (res : results) (timestamp : string) : result report :=
  s1 <- when_present res "summary_stats" (fun e =>
          stats <- first e ;;
          ms <- mapM (metric stats) metrics ;;
          Ok (mkSection "Summary Statistics" [ms])) ;;
  s2 <- when_present res "monthly_trends" (fun e =>
          ls <- table e (fun row => format_line row
                  [("month_name", ""); ("year", ""); ("listing_count", ",");
                   ("avg_price", ",.0f"); ("avg_price_per_sqft", ",.2f")]) ;;
          Ok (mkSection "Monthly Trends" ls)) ;;
  s3 <- when_present res "location_analysis" (fun e =>
          ls <- table e (fun row => format_line row
                  [("city", ""); ("listing_count", ","); ("avg_price", ",.0f");
                   ("avg_bedrooms", ".1f"); ("avg_sqft", ",.0f");
                   ("avg_price_per_sqft", ",.2f")]) ;;
          Ok (mkSection "Location Performance" ls)) ;;
  s4 <- when_present res "property_type_distribution" (fun e =>
          ls <- table e (fun row => format_line row
                  [("type_name", ""); ("listing_count", ","); ("pct_of_total", ".1f");
                   ("avg_price", ",.0f"); ("avg_bedrooms", ".1f")]) ;;
          Ok (mkSection "Property Type Distribution" ls)) ;;
  s5 <- when_present res "price_correlations" (fun e =>
          corr <- first e ;;
          l <- format_line corr
                 [("price_sqft_correlation", ".4f"); ("price_bedrooms_correlation", ".4f");
                  ("price_bathrooms_correlation", ".4f")] ;;
          Ok (mkSection "Price Correlation Analysis" [l])) ;;
  s6 <- when_present res "top_10_expensive" (fun e =>
          ls <- table e (fun row => format_line row
                  [("listing_id", ""); ("city", ""); ("type_name", ""); ("bedrooms", "");
                   ("sqft", ","); ("price", ",.0f"); ("price_per_sqft", ",.2f")]) ;;
          Ok (mkSection "Top 10 Most Expensive Listings" ls)) ;;
  s7 <- when_present res "price_brackets" (fun e =>
          ls <- table e (fun row => format_line row
                  [("price_bracket", ""); ("listing_count", ","); ("pct_of_total", ".1f");
                   ("avg_price", ",.0f")]) ;;
          Ok (mkSection "Market Segmentation by Price" ls)) ;;
  s8 <- when_present res "bedroom_distribution" (fun e =>
          ls <- table e (fun row =>
                  b <- bedrooms_label row ;;
                  l <- format_line row
                         [("listing_count", ","); ("avg_price", ",.0f"); ("avg_sqft", ",.0f")] ;;
                  Ok (b :: l)) ;;
          Ok (mkSection "Inventory by Bedroom Count" ls)) ;;
  Ok (mkReport timestamp (s1 ++ s2 ++ s3 ++ s4 ++ s5 ++ s6 ++ s7 ++ s8)%list).

(** The objects written to the reports bucket. *)
Inductive blob : Type :=
| HtmlBlob (r : report)
| JsonBlob (generated_at : string) (total_queries : nat) (res : results).

(** The body of the HTTP response. *)
Inductive response : Type :=
| Success (timestamp html_report json_report : string) (queries_executed : nat)
| Error (error : string).

Section Invocation.

(** [bigquery_client.query(q).to_dataframe().to_dict(orient='records')]
    for the query of a given name. *)
Variable run_query : string -> result (list record).
(** [datetime.utcnow().strftime('%Y%m%d_%H%M%S')] *)
Variable timestamp : string.
(** [blob.upload_from_string] to an object name. *)
Variable upload_from_string : string -> blob -> result unit.

(** The loop of [execute_analytical_queries]: each query runs in its own
    [try]; an exception is recorded under the query's name. *)
Definition execute_analytical_queries : results :=
  List.map (fun query_name =>
              (query_name,
               match run_query query_name with
               | Ok rs => Records rs
               | Raise e => ErrorDict (str_exn e)
               end)) queries.

(** The [try] block of [generate_report]; the bucket is the list of the
    objects written. *)
Definition try_generate_report (store : list (string * blob))
    : list (string * blob) * result response :=
  let res := execute_analytical_queries in
  match generate_html_report res timestamp with
  | Raise e => (store, Raise e)
  | Ok html_report =>
      let html_filename := "reports/analytics_report_" ++ timestamp ++ ".html" in
      match upload_from_string html_filename (HtmlBlob html_report) with
      | Raise e => (store, Raise e)
      | Ok _ =>
          let store1 := (store ++ [(html_filename, HtmlBlob html_report)])%list in
          let json_report := JsonBlob timestamp (List.length res) res in
          let json_filename := "reports/analytics_data_" ++ timestamp ++ ".json" in
          match upload_from_string json_filename json_report with
          | Raise e => (store1, Raise e)
          | Ok _ =>
              ((store1 ++ [(json_filename, json_report)])%list,
               Ok (Success timestamp html_filename json_filename (List.length res)))
          end
      end
  end.

(** [generate_report(request)]: the response and its HTTP status. *)
Definition generate_report (store : list (string * blob))
    : list (string * blob) * (response * Z) :=
  match try_generate_report store with
  | (store', Ok r) => (store', (r, 200%Z))
  | (store', Raise e) => (store', (Error (str_exn e), 500%Z))
  end.

End Invocation.

End Analytics.

(** ** The queries of the analytics function *)

Module Queries.

Local Open Scope Q_scope.

(** The CASE expression of the [price_brackets] query.  A comparison with
    a NULL price is not true, so a NULL price falls to the ELSE branch. *)
Definition price_bracket (price : option Q) : string :=
  if Num.lt price 500000 then "Budget (<500K)"
  else if Num.ge price 500000 && Num.lt price 1000000 then "Mid-Range (500K-1M)"
  else if Num.ge price 1000000 && Num.lt price 2000000 then "Premium (1M-2M)"
  else if Num.ge price 2000000 && Num.lt price 5000000 then "Luxury (2M-5M)"
  else "Ultra-Luxury (5M+)".

(** The CASE expression of its ORDER BY clause. *)
Definition bracket_rank (price_bracket : string) : Z :=
  if String.eqb price_bracket "Budget (<500K)" then 1
  else if String.eqb price_bracket "Mid-Range (500K-1M)" then 2
  else if String.eqb price_bracket "Premium (1M-2M)" then 3
  else if String.eqb price_bracket "Luxury (2M-5M)" then 4
  else 5.

(** The sections of the report in the order in which
    [generate_html_report] writes them: the query and the heading. *)
Definition report_sections : list (string * string) :=
  [("summary_stats", "Summary Statistics");
   ("monthly_trends", "Monthly Trends");
   ("location_analysis", "Location Performance");
   ("property_type_distribution", "Property Type Distribution");
   ("price_correlations", "Price Correlation Analysis");
   ("top_10_expensive", "Top 10 Most Expensive Listings");
   ("price_brackets", "Market Segmentation by Price");
   ("bedroom_distribution", "Inventory by Bedroom Count")].

(** Whether [results] has rows, or an error entry, for a query. *)
Definition has_entry (res : Analytics.results) (query_name : string) : bool :=
  match Analytics.lookup query_name res with
  | Some e => Analytics.truthy e
  | None => false
  end.

End Queries.

(** ** transform.py and load.py, the copies beside main.py *)

Module LegacyTransform.

Import PyStr Num Calendar.
Local Open Scope Q_scope.

(** A row of the frame this normaliser returns. *)
Record row : Type := mk {
  cols : Listing Timestamp string (option Q);
  price_per_sqft : option Q;
  location_key : string;
  property_type_key : string;
  date_key : Z;
  created_at : Timestamp
}.

Definition required_cols : list string :=
  ["price"; "bedrooms"; "bathrooms"; "sqft"; "location"; "property_type"; "list_date"].

(** [df[col].fillna(v, inplace=True)] for the four numeric columns; the
    fill value of a column is computed on the frame as it then stands. *)
Definition fill_numeric {D S : Type} (df : list (Listing D S (option Q)))
    : result (list (Listing D S (option Q))) :=
  let df1 := List.map (fun r => Transform.set_price
                 (fillna (median (List.map (@price _ _ _) df)) (price r)) r) df in
  let df2 := List.map (fun r => Transform.set_sqft
                 (fillna (median (List.map (@sqft _ _ _) df1)) (sqft r)) r) df1 in
  match mode (List.map (@bedrooms _ _ _) df2) with
  | None => Raise (KeyError "0")
  | Some m =>
      let df3 := List.map (fun r => Transform.set_bedrooms
                     (fillna (Some m) (bedrooms r)) r) df2 in
      Ok (List.map (fun r => Transform.set_bathrooms
                      (fillna (median (List.map (@bathrooms _ _ _) df3)) (bathrooms r)) r)
                   df3)
  end.

(** [.str.title().str.strip()] on the filled text columns. *)
Definition standardize_text {D B : Type}
    (df : list (Listing D (option string) B)) : list (Listing D string B) :=
  List.map (fun r => Transform.set_text
                       (strip (title (Transform.fill_unknown (location r))))
                       (strip (title (Transform.fill_unknown (property_type r)))) r) df.

Definition derive (now : Timestamp) (r : Listing Timestamp string (option Q)) : row :=
  {| cols := r;
     price_per_sqft := option_map round2 (div (price r) (sqft r));
     location_key := location r;
     property_type_key := property_type r;
     date_key := strftime_Ymd_int (list_date r);
     created_at := now |}.

(** [normalize_dataframe(df)] of transform.py: no cast, no minimum filters
    and no final validation. *)
Definition normalize_dataframe (csv : Csv) (now : Timestamp) : result (list row) :=
  match missing_columns required_cols (columns csv) with
  | _ :: _ => Raise (ValueError "Missing required columns")
  | [] =>
      df2 <- fill_numeric (Transform.standardize_dates (rows (frame csv))) ;;
      let df3 := standardize_text df2 in
      let df4 := List.filter (fun r => negb (Transform.outliers_mask df3 r)) df3 in
      Ok (List.map (derive now) df4)
  end.

End LegacyTransform.

Module LegacyLoad.

Import PyStr.

(** [categorize_property] of load.py: no rule for studios or penthouses. *)
Definition categorize_property (type_name : string) : string :=
  if contains "apartment" (lower type_name) || contains "flat" (lower type_name)
  then "Residential-Apartment"
  else if contains "villa" (lower type_name) || contains "house" (lower type_name)
  then "Residential-House"
  else if contains "townhouse" (lower type_name)
  then "Residential-Townhouse"
  else "Other".

(** [locations[['city', 'state']] = locations['location'].str.split(',',
    n=1, expand=True)], then the two [strip]s.  The split has two columns
    only when some location contains a comma; otherwise the assignment to
    two columns raises. *)
Definition split_locations (locations : list string)
    : result (list (string * string * option string)) :=
  if existsb (contains ",") locations
  then Ok (List.map (fun loc => let (c, s) := split_comma loc in
                                (loc, strip c, option_map strip s)) locations)
  else Raise (ValueError "Columns must be same length as key").

End LegacyLoad.

(** ** Sample batches *)

Module Samples.

Import Calendar.
Local Open Scope Q_scope.

(** 2024-01-15 is day 19737 since the epoch. *)
Definition listing (d : Timestamp) (loc ty : string) (p s b ba : Q)
    : Listing (option Timestamp) (option string) (option Q) :=
  mkListing (Some d) (Some loc) (Some ty) (Some p) (Some s) (Some b) (Some ba)
            None None.

(** Scenario 1 of the specification. *)
Definition scenario1 : RawFrame :=
  mkRawFrame [listing (midnight 19737) "  dubai marina, dubai " "apartment"
                      800000 1200 2 2] false false.

(** Two listings, entered at noon on 2024-01-15 and at 06:00 the next
    morning. *)
Definition two_days : RawFrame :=
  mkRawFrame [listing (ymd_hms 19737 12 0 0) "Dubai Marina, Dubai" "Apartment"
                      800000 1200 2 2;
              listing (ymd_hms 19738 6 0 0) "Sharjah" "Penthouse Suite"
                      900000 1000 3 2] false false.

(** A batch whose prices are all zero or negative. *)
Definition no_positive_price : RawFrame :=
  mkRawFrame [listing (midnight 19737) "Sharjah" "Villa" 0 1200 2 2;
              listing (midnight 19738) "Ajman" "Studio" (-5) 800 1 1] false false.

(** Five listings, the last one far above the others in price. *)
Definition with_outlier : RawFrame :=
  mkRawFrame [listing (midnight 19737) "Dubai Marina, Dubai" "Apartment" 100 50 1 1;
              listing (midnight 19738) "Sharjah" "Studio" 110 50 0 1;
              listing (midnight 19739) "Dubai Marina, Dubai" "Villa" 120 60 3 2;
              listing (midnight 19740) "Al Khan, Sharjah" "Townhouse" 130 60 3 2;
              listing (midnight 19741) "Palm Jumeirah, Dubai" "Penthouse" 10000 90 4 4]
             false false.

Definition cleaned (d : Timestamp) (loc ty : string) (p s : Q) (b : Z) (ba : Q)
    : Listing Timestamp string (option Z) :=
  mkListing d loc ty (Some p) (Some s) (Some b) (Some ba) None None.

(** The normalised rows of the samples, with the clock at 1 and 2. *)
Definition scenario1_row : NormRow :=
  Transform.derive false false 1%Z 2%Z
    (cleaned (midnight 19737) "Dubai Marina, Dubai" "Apartment" 800000 1200 2 2).

Definition noon_row : NormRow :=
  Transform.derive false false 1%Z 2%Z
    (cleaned (ymd_hms 19737 12 0 0) "Dubai Marina, Dubai" "Apartment" 800000 1200 2 2).

Definition morning_row : NormRow :=
  Transform.derive false false 1%Z 2%Z
    (cleaned (ymd_hms 19738 6 0 0) "Sharjah" "Penthouse Suite" 900000 1000 3 2).

Definition two_days_normalized : list NormRow := [noon_row; morning_row].

Definition cheapest_row : NormRow :=
  Transform.derive false false 1%Z 2%Z
    (cleaned (midnight 19737) "Dubai Marina, Dubai" "Apartment" 100 50 1 1).

Definition with_outlier_normalized : list NormRow :=
  [cheapest_row;
   Transform.derive false false 1%Z 2%Z
     (cleaned (midnight 19738) "Sharjah" "Studio" 110 50 0 1);
   Transform.derive false false 1%Z 2%Z
     (cleaned (midnight 19739) "Dubai Marina, Dubai" "Villa" 120 60 3 2);
   Transform.derive false false 1%Z 2%Z
     (cleaned (midnight 19740) "Al Khan, Sharjah" "Townhouse" 130 60 3 2)].

Definition empty_warehouse : Warehouse := mkWarehouse [] [] [] [].

(** An upload of [listings.csv] to the landing bucket, and the services
    that deliver a given frame for it. *)
Definition upload : Event := mkEvent "landing" "listings.csv".

Definition download_ok (bucket_name file_name : string) : result string :=
  Ok "list_date,location,property_type,price,bedrooms,bathrooms,sqft".

Definition download_not_found (bucket_name file_name : string) : result string :=
  Raise (ExternalError "404 No such object").

Definition read_as (df : RawFrame) (content : string) : result Csv :=
  Ok (mkCsv ["list_date"; "location"; "property_type"; "price"; "bedrooms";
             "bathrooms"; "sqft"] df).

Definition clock (n : nat) : Timestamp := Z.of_nat (S n).

(** A reporting run in which the correlation query fails and every other
    query returns one record with the columns its section prints. *)
Definition one_record : Analytics.record :=
  [("total_listings", Analytics.VInt 1); ("avg_price", Analytics.VNum 800000);
   ("avg_price_per_sqft", Analytics.VNum (66667 # 100));
   ("avg_sqft", Analytics.VNum 1200); ("avg_bedrooms", Analytics.VNum 2);
   ("year", Analytics.VInt 2024); ("month_name", Analytics.VText "January");
   ("listing_count", Analytics.VInt 1); ("city", Analytics.VText "Dubai Marina");
   ("type_name", Analytics.VText "Apartment"); ("pct_of_total", Analytics.VNum 100);
   ("listing_id", Analytics.VInt 1); ("bedrooms", Analytics.VInt 2);
   ("bathrooms", Analytics.VNum 2); ("sqft", Analytics.VNum 1200);
   ("price", Analytics.VNum 800000); ("price_per_sqft", Analytics.VNum (66667 # 100));
   ("price_bracket", Analytics.VText "Mid-Range (500K-1M)");
   ("price_sqft_correlation", Analytics.VNum (1 # 2));
   ("price_bedrooms_correlation", Analytics.VNum (1 # 2));
   ("price_bathrooms_correlation", Analytics.VNum (1 # 2))].

Definition correlation_fails (query_name : string) : result (list Analytics.record) :=
  if String.eqb query_name "price_correlations"
  then Raise (ExternalError "400 Division by zero")
  else Ok [one_record].

Definition all_succeed (query_name : string) : result (list Analytics.record) :=
  Ok [one_record].

Definition upload_ok (object_name : string) (b : Analytics.blob) : result unit :=
  Ok tt.

(** A bucket that takes the HTML report and refuses the JSON one. *)
Definition upload_html_only (object_name : string) (b : Analytics.blob)
    : result unit :=
  match b with
  | Analytics.HtmlBlob _ => Ok tt
  | Analytics.JsonBlob _ _ _ => Raise (ExternalError "503 Service Unavailable")
  end.

(** The summary of an empty table: a count of zero and averages that are
    None. *)
Definition empty_summary : Analytics.record :=
  [("total_listings", Analytics.VInt 0); ("avg_price", Analytics.VNull);
   ("avg_price_per_sqft", Analytics.VNull); ("avg_sqft", Analytics.VNull);
   ("avg_bedrooms", Analytics.VNull)].

Definition empty_table (query_name : string) : result (list Analytics.record) :=
  if String.eqb query_name "summary_stats" then Ok [empty_summary] else Ok [].

End Samples.

(** * Properties *)

Unset Implicit Arguments.

Import PyStr.

(** ** Strings *)

Lemma prefix_nil (s : string) : prefix EmptyString s = true.
Proof. destruct s; reflexivity. Qed.

Lemma prefix_cons_eq (a b : ascii) (s t : string) :
  prefix (String a s) (String b t) = if ascii_dec a b then prefix s t else false.
Proof. reflexivity. Qed.

Lemma prefix_cons (a b : ascii) (s t : string) :
  prefix (String a s) (String b t) = true <-> a = b /\ prefix s t = true.
Proof.
  rewrite prefix_cons_eq. destruct (ascii_dec a b) as [e | n].
  - split; [intros H; split; assumption | intros [_ H]; exact H].
  - split; [discriminate | intros [e _]; contradiction].
Qed.

Lemma contains_eq (sub s : string) :
  contains sub s =
  if prefix sub s then true
  else match s with
       | EmptyString => false
       | String _ t => contains sub t
       end.
Proof. destruct s; reflexivity. Qed.

Lemma contains_here (sub s : string) :
  prefix sub s = true -> contains sub s = true.
Proof. intros H. rewrite contains_eq, H. reflexivity. Qed.

Lemma contains_later (sub : string) (c : ascii) (s : string) :
  contains sub s = true -> contains sub (String c s) = true.
Proof.
  intros H. rewrite contains_eq, H.
  destruct (prefix sub (String c s)); reflexivity.
Qed.

Lemma prefix_app_contains (a b s : string) :
  prefix (a ++ b) s = true -> contains b s = true.
Proof.
  revert s. induction a as [| c a IH]; intros s H.
  - apply contains_here. exact H.
  - destruct s as [| c' s]; [discriminate H |].
    change ((String c a) ++ b)%string with (String c (a ++ b)) in H.
    apply prefix_cons in H. destruct H as [_ H].
    apply contains_later. apply IH. exact H.
Qed.

(** A text that contains a word contains each of its endings. *)
Lemma contains_app (a b s : string) :
  contains (a ++ b) s = true -> contains b s = true.
Proof.
  induction s as [| c s IH]; rewrite (contains_eq (a ++ b));
    destruct (prefix (a ++ b) _) eqn:E;
    try (intros _; apply (prefix_app_contains a b _ E)).
  - discriminate.
  - intros H. apply contains_later, IH, H.
Qed.

Lemma contains_comma_cons (c : ascii) (s : string) :
  contains "," (String c s) = if Ascii.eqb c comma then true else contains "," s.
Proof.
  rewrite contains_eq, prefix_cons_eq. destruct (ascii_dec "," c) as [e | n].
  - subst c. rewrite prefix_nil. reflexivity.
  - destruct (Ascii.eqb c comma) eqn:E; [| reflexivity].
    apply Ascii.eqb_eq in E. subst c. contradiction n. reflexivity.
Qed.

Lemma split_comma_without (s : string) :
  contains "," s = false -> split_comma s = (s, None).
Proof.
  induction s as [| c s IH]; [reflexivity |].
  rewrite contains_comma_cons. simpl split_comma.
  destruct (Ascii.eqb c comma); [discriminate |].
  intros H. rewrite (IH H). reflexivity.
Qed.

Lemma split_comma_with (s : string) :
  contains "," s = true ->
  exists a b, split_comma s = (a, Some b)
              /\ s = (a ++ String comma b)%string
              /\ contains "," a = false.
Proof.
  induction s as [| c s IH]; [discriminate |].
  rewrite contains_comma_cons. simpl split_comma.
  destruct (Ascii.eqb c comma) eqn:E.
  - intros _. apply Ascii.eqb_eq in E. subst c.
    exists EmptyString, s. repeat split.
  - intros H. destruct (IH H) as (a & b & Hs & Hcat & Ha).
    exists (String c a), b. rewrite Hs. repeat split.
    + simpl. rewrite <- Hcat. reflexivity.
    + rewrite contains_comma_cons, E. exact Ha.
Qed.

Lemma is_space_upper_char (c : ascii) : is_space (upper_char c) = is_space c.
Proof. destruct c as [[] [] [] [] [] [] [] []]; reflexivity. Qed.

Lemma is_space_lower_char (c : ascii) : is_space (lower_char c) = is_space c.
Proof. destruct c as [[] [] [] [] [] [] [] []]; reflexivity. Qed.

Lemma is_space_title_char (b : bool) (c : ascii) :
  is_space (if b then lower_char c else upper_char c) = is_space c.
Proof. destruct b; [apply is_space_lower_char | apply is_space_upper_char]. Qed.

(** A text is trimmed at the left when it is empty or starts with a
    character that is not white space, and likewise at the right. *)
Lemma lstrip_fixed (s : string) :
  lstrip s = s <->
  match s with EmptyString => True | String c _ => is_space c = false end.
Proof.
  destruct s as [| c t]; simpl; [tauto |].
  destruct (is_space c) eqn:E; [| tauto].
  split; [| discriminate].
  intros H. exfalso.
  assert (L : forall u, (String.length (lstrip u) <= String.length u)%nat).
  { induction u as [| d u IH]; simpl; [lia |].
    destruct (is_space d); simpl; lia. }
  specialize (L t). rewrite H in L. simpl in L. lia.
Qed.

Lemma lstrip_lstrip (s : string) : lstrip (lstrip s) = lstrip s.
Proof.
  induction s as [| c t IH]; [reflexivity |]. simpl.
  destruct (is_space c) eqn:E; [exact IH |]. simpl. rewrite E. reflexivity.
Qed.

Lemma rstrip_nil_title (b : bool) (s : string) :
  rstrip s = EmptyString -> rstrip (title_from b s) = EmptyString.
Proof.
  revert b. induction s as [| c t IH]; intros b; [reflexivity |]. simpl.
  destruct (rstrip t) eqn:E; [| discriminate].
  rewrite (IH (is_cased c) eq_refl), is_space_title_char.
  destruct (is_space c); [reflexivity | discriminate].
Qed.

Lemma rstrip_rstrip (s : string) : rstrip (rstrip s) = rstrip s.
Proof.
  induction s as [| c t IH]; [reflexivity |]. simpl.
  destruct (rstrip t) as [| d u] eqn:E.
  - destruct (is_space c) eqn:Ec; [reflexivity |]. simpl. rewrite Ec. reflexivity.
  - change (rstrip (String c (String d u)))
      with (match rstrip (String d u) with
            | EmptyString => if is_space c then EmptyString else String c EmptyString
            | t' => String c t'
            end).
    rewrite IH. reflexivity.
Qed.

Lemma rstrip_title (b : bool) (s : string) :
  rstrip s = s -> rstrip (title_from b s) = title_from b s.
Proof.
  revert b. induction s as [| c t IH]; intros b; [reflexivity |]. simpl.
  destruct (rstrip t) as [| d u] eqn:E.
  - destruct (is_space c) eqn:Ec; [discriminate |].
    intros H. injection H as H. subst t. simpl.
    rewrite is_space_title_char, Ec. reflexivity.
  - intros H. injection H as H.
    rewrite (IH (is_cased c) H). rewrite <- H. reflexivity.
Qed.

Lemma lstrip_title (b : bool) (s : string) :
  lstrip s = s -> lstrip (title_from b s) = title_from b s.
Proof.
  intros H. apply lstrip_fixed in H. apply lstrip_fixed.
  destruct s as [| c t]; simpl; [exact I |].
  rewrite is_space_title_char. exact H.
Qed.

Lemma lstrip_rstrip (s : string) : lstrip s = s -> lstrip (rstrip s) = rstrip s.
Proof.
  intros H. apply lstrip_fixed in H. apply lstrip_fixed.
  destruct s as [| c t]; simpl; [exact I |].
  destruct (rstrip t); [rewrite H |]; exact H.
Qed.

Lemma strip_left (s : string) : lstrip (strip s) = strip s.
Proof. apply lstrip_rstrip, lstrip_lstrip. Qed.

Lemma strip_right (s : string) : rstrip (strip s) = strip s.
Proof. apply rstrip_rstrip. Qed.

Lemma strip_strip (s : string) : strip (strip s) = strip s.
Proof. unfold strip at 1. rewrite strip_left. apply strip_right. Qed.

(** What the normaliser makes of a text cell is trimmed. *)
Lemma strip_title_strip (s : string) :
  strip (title (strip s)) = title (strip s).
Proof.
  unfold strip at 1, title.
  rewrite (lstrip_title false _ (strip_left s)).
  apply rstrip_title, strip_right.
Qed.

(** ** The category of a property type *)

(** A type name that mentions a townhouse or a penthouse mentions a house. *)
Lemma townhouse_is_house (s : string) :
  contains "townhouse" s = true -> contains "house" s = true.
Proof. apply (contains_app "town" "house"). Qed.

Lemma penthouse_is_house (s : string) :
  contains "penthouse" s = true -> contains "house" s = true.
Proof. apply (contains_app "pent" "house"). Qed.

(** The rules in their order: each applies when it matches and none before
    it does. *)
Lemma categorize_property_rules (type_name : string) :
  let t := lower type_name in
  let apartment := contains "apartment" t || contains "flat" t || contains "studio" t in
  let house := contains "villa" t || contains "house" t in
  Load.categorize_property type_name =
    if apartment then "Residential-Apartment"
    else if house then "Residential-House"
    else if contains "townhouse" t then "Residential-Townhouse"
    else if contains "penthouse" t then "Residential-Luxury"
    else "Other".
Proof. reflexivity. Qed.

(** The rules for townhouses and penthouses are never the first to match,
    so only three categories are ever produced. *)
Lemma categorize_property_range (type_name : string) :
  Load.categorize_property type_name = "Residential-Apartment"
  \/ Load.categorize_property type_name = "Residential-House"
  \/ Load.categorize_property type_name = "Other".
Proof.
  unfold Load.categorize_property.
  destruct (contains "apartment" _ || contains "flat" _ || contains "studio" _);
    [left; reflexivity | right].
  destruct (contains "villa" (lower type_name)); [left; reflexivity |].
  destruct (contains "house" (lower type_name)) eqn:H; [left; reflexivity |].
  simpl orb. cbv iota.
  destruct (contains "townhouse" (lower type_name)) eqn:T.
  - apply townhouse_is_house in T. congruence.
  - destruct (contains "penthouse" (lower type_name)) eqn:P.
    + apply penthouse_is_house in P. congruence.
    + right; reflexivity.
Qed.

Lemma categorize_property_never_luxury (type_name : string) :
  Load.categorize_property type_name <> "Residential-Luxury"
  /\ Load.categorize_property type_name <> "Residential-Townhouse".
Proof.
  destruct (categorize_property_range type_name) as [H | [H | H]];
    rewrite H; split; discriminate.
Qed.

(** C1.  The category is decided by the rules for apartment, flat and
    studio, then villa and house, then townhouse, then penthouse, the first
    match winning; since "penthouse" contains "house", the type "Penthouse
    Suite" is given the category Residential-House, not Residential-Luxury.
    "Cozy Flat" is given Residential-Apartment. *)
Theorem categorize_penthouse_suite :
  Load.categorize_property "Penthouse Suite" = "Residential-House"
  /\ Load.categorize_property "Penthouse Suite" <> "Residential-Luxury"
  /\ Load.categorize_property "Cozy Flat" = "Residential-Apartment".
Proof. repeat split. discriminate. Qed.

(** ** Lists: numbering and duplicates *)

Lemma number_from_snd (A : Type) (l : list A) (k : Z) :
  List.map snd (Load.number_from k l) = l.
Proof.
  revert k. induction l as [| x l IH]; intros k; simpl; [| rewrite IH]; reflexivity.
Qed.

Lemma number_from_fst (A : Type) (l : list A) (k : Z) :
  List.map fst (Load.number_from k l)
  = List.map (fun i => (k + Z.of_nat i)%Z) (seq 0 (List.length l)).
Proof.
  revert k. induction l as [| x l IH]; intros k; simpl; [reflexivity |].
  rewrite IH, <- seq_shift, List.map_map. f_equal; [f_equal; lia |].
  apply List.map_ext. intros i. lia.
Qed.

Lemma number_from_length (A : Type) (l : list A) (k : Z) :
  List.length (Load.number_from k l) = List.length l.
Proof.
  revert k. induction l as [| x l IH]; intros k; simpl; [| rewrite IH]; reflexivity.
Qed.

Lemma drop_duplicates_In (l : list string) (x : string) :
  In x (Load.drop_duplicates l) <-> In x l.
Proof.
  induction l as [| y l IH]; simpl; [tauto |].
  rewrite filter_In, IH, negb_true_iff, String.eqb_neq.
  destruct (string_dec y x); [tauto |]. tauto.
Qed.

Lemma drop_duplicates_NoDup (l : list string) : NoDup (Load.drop_duplicates l).
Proof.
  induction l as [| y l IH]; simpl; constructor.
  - rewrite filter_In, negb_true_iff, String.eqb_neq. tauto.
  - apply NoDup_filter, IH.
Qed.

Section UniqueKeys.

Variables (A K : Type) (eqb : K -> K -> bool) (key : A -> K).
Hypothesis eqb_eq : forall x y, eqb x y = true <-> x = y.

Lemma filter_key_absent (l : list A) (k : K) :
  ~ In k (List.map key l) ->
  List.filter (fun r' => eqb (key r') k) l = [].
Proof.
  induction l as [| a l IH]; simpl; [reflexivity |].
  intros N. destruct (eqb (key a) k) eqn:E.
  - apply eqb_eq in E. tauto.
  - apply IH. tauto.
Qed.

(** A frame whose key column has no duplicate has one row for each key. *)
Lemma filter_key_unique (l : list A) (r : A) :
  NoDup (List.map key l) -> In r l ->
  List.filter (fun r' => eqb (key r') (key r)) l = [r].
Proof.
  induction l as [| a l IH]; simpl; [tauto |].
  intros N H. inversion N as [| ? ? Na Nl]; subst.
  destruct H as [-> | H].
  - rewrite (proj2 (eqb_eq _ _) eq_refl). f_equal. apply filter_key_absent, Na.
  - destruct (eqb (key a) (key r)) eqn:E.
    + apply eqb_eq in E. exfalso. apply Na. rewrite E.
      apply in_map, H.
    + apply IH; assumption.
Qed.

End UniqueKeys.

(** ** The location dimension *)

Section LocationDimension.

Import Calendar.
Variable df : list NormRow.
Variable now : Timestamp.

Let locations : list string :=
  Load.drop_duplicates (List.map (fun r => location (cols r)) df).

Let any_comma : bool := existsb (contains ",") locations.

Lemma location_rows_unfold :
  Load.location_rows df now
  = List.map (fun il => DimLocation.mk (fst il) (snd il)
                          (fst (Load.parse_location any_comma (snd il)))
                          (snd (Load.parse_location any_comma (snd il)))
                          None "UAE" now)
             (Load.number_from 1 locations).
Proof.
  unfold Load.location_rows. apply List.map_ext. intros [i loc]. simpl.
  fold locations. fold any_comma.
  destruct (Load.parse_location any_comma loc). reflexivity.
Qed.

Lemma location_rows_keys :
  List.map DimLocation.location (Load.location_rows df now) = locations.
Proof.
  rewrite location_rows_unfold, List.map_map. simpl.
  apply number_from_snd.
Qed.

Lemma location_rows_ids :
  List.map DimLocation.location_id (Load.location_rows df now)
  = List.map (fun i => (1 + Z.of_nat i)%Z) (seq 0 (List.length locations)).
Proof.
  rewrite location_rows_unfold, List.map_map. simpl.
  apply number_from_fst.
Qed.

Lemma location_row_parsed (row : DimLocation.row) :
  In row (Load.location_rows df now) ->
  (DimLocation.city row, DimLocation.state row)
  = Load.parse_location any_comma (DimLocation.location row).
Proof.
  rewrite location_rows_unfold, in_map_iff. intros ([i loc] & <- & _). simpl.
  destruct (Load.parse_location any_comma loc). reflexivity.
Qed.

(** Each location of the batch has exactly one row. *)
Lemma location_row_unique (l : string) :
  In l (List.map (fun r => location (cols r)) df) ->
  exists row,
    In row (Load.location_rows df now)
    /\ DimLocation.location row = l
    /\ List.filter (fun r => String.eqb (DimLocation.location r) l)
                   (Load.location_rows df now) = [row].
Proof.
  intros H. apply drop_duplicates_In in H. fold locations in H.
  rewrite <- location_rows_keys in H. apply in_map_iff in H.
  destruct H as (row & Hl & Hin). exists row. repeat split; try assumption.
  rewrite <- Hl. apply (filter_key_unique _ _ _ _ String.eqb_eq); [| exact Hin].
  rewrite location_rows_keys. apply drop_duplicates_NoDup.
Qed.

Lemma parse_location_trimmed (l : string) :
  In l locations -> strip l = l ->
  (contains "," l = true ->
     exists a b, l = (a ++ String comma b)%string /\ contains "," a = false
                 /\ Load.parse_location any_comma l = (strip a, Some (strip b)))
  /\ (contains "," l = false -> Load.parse_location any_comma l = (l, None)).
Proof.
  intros Hin Ht. unfold Load.parse_location. split; intros Hc.
  - assert (A : any_comma = true).
    { apply existsb_exists. exists l. split; assumption. }
    rewrite A. destruct (split_comma_with _ Hc) as (a & b & Hs & Hcat & Ha).
    exists a, b. rewrite Hs. repeat split; assumption.
  - destruct any_comma; [| reflexivity].
    rewrite (split_comma_without _ Hc). simpl. rewrite Ht. reflexivity.
Qed.

End LocationDimension.

(** C8.  For every location [l] of a batch that is trimmed, as the
    normalised locations are, the location dimension has exactly one row;
    when [l] contains a comma its city is the trimmed text before the first
    comma and its state the trimmed text after it; otherwise its city is
    [l] and its state is null, whatever the other locations of the batch
    are. *)
Theorem location_row_city_state (df : list NormRow) (now : Calendar.Timestamp)
    (l : string) :
  In l (List.map (fun r => location (cols r)) df) ->
  strip l = l ->
  exists row,
    List.filter (fun r => String.eqb (DimLocation.location r) l)
                (Load.location_rows df now) = [row]
    /\ DimLocation.location row = l
    /\ (contains "," l = true ->
          exists a b, l = (a ++ String comma b)%string
                      /\ contains "," a = false
                      /\ DimLocation.city row = strip a
                      /\ DimLocation.state row = Some (strip b))
    /\ (contains "," l = false ->
          DimLocation.city row = l /\ DimLocation.state row = None).
Proof.
  intros Hin Ht.
  destruct (@location_row_unique df now l Hin) as (row & Hrow & Hl & Hu).
  exists row. split; [exact Hu |]. split; [exact Hl |].
  pose proof (@location_row_parsed df now row Hrow) as Hp. rewrite Hl in Hp.
  apply drop_duplicates_In in Hin.
  destruct (@parse_location_trimmed df l Hin Ht) as [Hy Hn]. split; intros Hc.
  - destruct (Hy Hc) as (a & b & Hcat & Ha & Hq). exists a, b.
    rewrite Hq in Hp. injection Hp as Hcity Hstate. repeat split; assumption.
  - rewrite (Hn Hc) in Hp. injection Hp as Hcity Hstate. split; assumption.
Qed.

(** ** The normaliser *)

Section Normaliser.

Import Num Calendar Transform.
Local Open Scope Q_scope.

Lemma Qltb_true (a b : Q) : Qltb a b = true <-> a < b.
Proof.
  unfold Qltb. rewrite negb_true_iff. split; intros H.
  - apply Qnot_le_lt. intros L. apply Qle_bool_iff in L. congruence.
  - destruct (Qle_bool b a) eqn:E; [| reflexivity].
    apply Qle_bool_iff in E. exfalso. exact (Qlt_not_le _ _ H E).
Qed.

Lemma Qltb_false (a b : Q) : Qltb a b = false <-> b <= a.
Proof.
  unfold Qltb. rewrite negb_false_iff. apply Qle_bool_iff.
Qed.

Lemma gt_true (x : option Q) (b : Q) :
  gt x b = true <-> exists a, x = Some a /\ b < a.
Proof.
  destruct x as [a |]; simpl.
  - rewrite Qltb_true. split; [intros H; exists a; tauto |].
    intros (a' & E & H). injection E as ->. exact H.
  - split; [discriminate | intros (a & E & _); discriminate].
Qed.

Lemma int_ge0_true (x : option Z) :
  int_ge0 x = true <-> exists b, x = Some b /\ (0 <= b)%Z.
Proof.
  destruct x as [b |]; simpl.
  - rewrite Z.leb_le. split; [intros H; exists b; tauto |].
    intros (b' & E & H). injection E as ->. exact H.
  - split; [discriminate | intros (b & E & _); discriminate].
Qed.

Lemma filter_none (A : Type) (f : A -> bool) (l : list A) (x : A) :
  (0 <? List.length (List.filter f l))%nat = false -> In x l -> f x = false.
Proof.
  intros H Hin. destruct (f x) eqn:E; [| reflexivity].
  assert (Hf : In x (List.filter f l)) by (apply filter_In; tauto).
  destruct (List.filter f l); [destruct Hf | discriminate H].
Qed.

(** A row kept by the outlier step is a row of the frame that the mask
    does not select. *)
Lemma remove_outliers_In (D S B : Type) (df : list (Listing D S B))
    (r : Listing D S B) :
  In r (remove_outliers df) -> In r df /\ outliers_mask df r = false.
Proof.
  unfold remove_outliers.
  destruct (0 <? List.length (List.filter (outliers_mask df) df))%nat eqn:E.
  - rewrite filter_In, negb_true_iff. tauto.
  - intros H. split; [exact H |]. exact (filter_none _ _ _ _ E H).
Qed.

Lemma ensure_minimums_In (D S : Type) (df : list (Listing D S (option Z)))
    (r : Listing D S (option Z)) :
  In r (ensure_minimums df) <->
  In r df /\ gt (price r) 0 = true /\ gt (sqft r) 0 = true
  /\ int_ge0 (bedrooms r) = true /\ gt (bathrooms r) 0 = true.
Proof. unfold ensure_minimums. rewrite !filter_In. tauto. Qed.

Lemma surviving_inv (df : RawFrame) (created updated : Timestamp)
    (out : list NormRow) :
  surviving df created updated = Ok out ->
  exists pre,
    before_outliers df = Ok pre
    /\ out = List.map (derive (has_listing_status df) (has_lot_size df)
                              created updated)
                      (ensure_minimums (remove_outliers pre)).
Proof.
  unfold surviving. destruct (before_outliers df) as [pre | e]; simpl;
    [| discriminate].
  intros H. injection H as <-. exists pre. split; reflexivity.
Qed.

Lemma normalize_dataframe_inv (df : RawFrame) (created updated : Timestamp)
    (out : list NormRow) :
  normalize_dataframe df created updated = Ok out ->
  surviving df created updated = Ok out /\ out <> [].
Proof.
  unfold normalize_dataframe.
  destruct (surviving df created updated) as [o | e]; simpl; [| discriminate].
  destruct o as [| r o]; simpl; [discriminate |].
  intros H. injection H as <-. split; [reflexivity | discriminate].
Qed.

(** The rows of the output are the derived forms of rows that passed the
    outlier step and the four minimum filters. *)
Lemma normalize_dataframe_row (df : RawFrame) (created updated : Timestamp)
    (out : list NormRow) (r : NormRow) :
  normalize_dataframe df created updated = Ok out -> In r out ->
  exists pre r0,
    before_outliers df = Ok pre
    /\ In r0 (ensure_minimums (remove_outliers pre))
    /\ r = derive (has_listing_status df) (has_lot_size df) created updated r0.
Proof.
  intros H Hin. apply normalize_dataframe_inv in H. destruct H as [H _].
  apply surviving_inv in H. destruct H as (pre & Hpre & ->).
  apply in_map_iff in Hin. destruct Hin as (r0 & <- & Hin).
  exists pre, r0. repeat split; assumption.
Qed.

Lemma insert_not_nil (a : Q) (l : list Q) : insert a l <> [].
Proof. destruct l; simpl; [| destruct (Qle_bool a q)]; discriminate. Qed.

Lemma sort_nil (l : list Q) : sort l = [] -> l = [].
Proof.
  destruct l as [| a l]; [reflexivity |]. simpl. intros H.
  exfalso. exact (insert_not_nil _ _ H).
Qed.

Lemma present_In (col : list (option Q)) (a : Q) :
  In a (present col) <-> In (Some a) col.
Proof.
  induction col as [| [b |] col IH]; simpl.
  - tauto.
  - rewrite IH. split; intros [H | H]; try tauto.
    + left. congruence.
    + left. congruence.
  - rewrite IH. split; [tauto | intros [H | H]; [discriminate | exact H]].
Qed.

(** The quantile of a column with a present cell is a number. *)
Lemma quantile_defined (q : Q) (col : list (option Q)) (a : Q) :
  In (Some a) col -> exists v, quantile q col = Some v.
Proof.
  intros H. apply present_In in H. unfold quantile.
  destruct (sort (present col)) eqn:E.
  - apply sort_nil in E. rewrite E in H. destruct H.
  - eexists. reflexivity.
Qed.

End Normaliser.

(** Scenario 1 of the specification. *)
Example scenario1_normalized :
  exists r,
    Transform.normalize_dataframe Samples.scenario1 1%Z 2%Z = Ok [r]
    /\ location (cols r) = "Dubai Marina, Dubai"
    /\ property_type (cols r) = "Apartment"
    /\ price_per_sqft r = Some (66667 # 100).
Proof. eexists. repeat split. Qed.

(** C7.  Every row of the normalised frame has a price and an area above
    zero, a number of bedrooms that is not negative and a number of
    bathrooms above zero; the rows are filtered before the derived fields
    are computed from them. *)
Theorem normalized_minimums (df : RawFrame) (created updated : Calendar.Timestamp)
    (out : list NormRow) (r : NormRow) :
  Transform.normalize_dataframe df created updated = Ok out ->
  In r out ->
  exists p s b ba,
    price (cols r) = Some p /\ 0 < p
    /\ sqft (cols r) = Some s /\ 0 < s
    /\ bedrooms (cols r) = Some b /\ (0 <= b)%Z
    /\ bathrooms (cols r) = Some ba /\ 0 < ba.
Proof.
  intros H Hin.
  destruct (@normalize_dataframe_row _ _ _ _ _ H Hin) as (pre & r0 & _ & Hr0 & ->).
  apply ensure_minimums_In in Hr0. destruct Hr0 as (_ & Hp & Hs & Hb & Hba).
  apply gt_true in Hp, Hs, Hba. apply int_ge0_true in Hb.
  destruct Hp as (p & Ep & Lp), Hs as (s & Es & Ls),
           Hb as (b & Eb & Lb), Hba as (ba & Eba & Lba).
  exists p, s, b, ba. simpl. repeat split; assumption.
Qed.

(** C3.  Every row of the normalised frame has its price between
    Q1 - 1.5 IQR and Q3 + 1.5 IQR, where Q1 and Q3 are the quartiles of the
    prices of the frame as it stands just before the outliers are removed;
    the filters that follow only remove rows. *)
Theorem outlier_fence (df : RawFrame) (created updated : Calendar.Timestamp)
    (out : list NormRow) (r : NormRow) :
  Transform.normalize_dataframe df created updated = Ok out ->
  In r out ->
  exists pre q1 q3 p,
    Transform.before_outliers df = Ok pre
    /\ Num.quantile (1 # 4) (List.map (@price _ _ _) pre) = Some q1
    /\ Num.quantile (3 # 4) (List.map (@price _ _ _) pre) = Some q3
    /\ price (cols r) = Some p
    /\ q1 - (3 # 2) * (q3 - q1) <= p
    /\ p <= q3 + (3 # 2) * (q3 - q1).
Proof.
  intros H Hin.
  destruct (@normalize_dataframe_row _ _ _ _ _ H Hin) as (pre & r0 & Hpre & Hr0 & ->).
  apply ensure_minimums_In in Hr0. destruct Hr0 as (Hr0 & Hp & _).
  apply remove_outliers_In in Hr0. destruct Hr0 as [Hr0 Hmask].
  apply gt_true in Hp. destruct Hp as (p & Ep & _).
  assert (Hcol : In (Some p) (List.map (@price _ _ _) pre)).
  { rewrite <- Ep. apply in_map, Hr0. }
  destruct (@quantile_defined (1 # 4) _ _ Hcol) as (q1 & E1).
  destruct (@quantile_defined (3 # 4) _ _ Hcol) as (q3 & E3).
  exists pre, q1, q3, p. repeat split; try assumption.
  - unfold Transform.outliers_mask, Transform.lower_bound in Hmask.
    apply orb_false_iff in Hmask. destruct Hmask as [Hlo _].
    rewrite E1, E3, Ep in Hlo. simpl in Hlo. apply Qltb_false in Hlo. exact Hlo.
  - unfold Transform.outliers_mask, Transform.upper_bound in Hmask.
    apply orb_false_iff in Hmask. destruct Hmask as [_ Hhi].
    rewrite E1, E3, Ep in Hhi. simpl in Hhi. apply Qltb_false in Hhi. exact Hhi.
Qed.

(** *** Where the rows of the frame before the outlier step come from *)

Section Provenance.

Import Num Calendar Transform.
Local Open Scope Q_scope.

Lemma standardize_dates_In (S B : Type)
    (df : list (Listing (option Timestamp) S B)) (r : Listing Timestamp S B) :
  In r (standardize_dates df) ->
  exists raw, In raw df /\ list_date raw = Some (list_date r)
              /\ r = set_list_date (list_date r) raw.
Proof.
  unfold standardize_dates. rewrite in_flat_map. intros (raw & Hin & H).
  exists raw. destruct (list_date raw) as [d |] eqn:E; [| destruct H].
  destruct H as [<- | []]. simpl. repeat split; assumption.
Qed.

Lemma standardize_dates_price (S B : Type)
    (df : list (Listing (option Timestamp) S B)) (a : Q) :
  In (Some a) (List.map (@price _ _ _) (standardize_dates df)) ->
  In (Some a) (List.map (@price _ _ _) df).
Proof.
  rewrite !in_map_iff. intros (r & E & Hin).
  destruct (standardize_dates_In _ _ _ _ Hin) as (raw & Hraw & _ & Hr).
  exists raw. split; [| exact Hraw]. rewrite <- E, Hr. reflexivity.
Qed.

Lemma handle_missing_In (D S : Type) (df : list (Listing D S (option Q)))
    (r : Listing D S (option Q)) :
  In r (handle_missing df) ->
  exists r0, In r0 df
             /\ price r = impute_median (List.map (@price _ _ _) df) (price r0)
             /\ location r = location r0
             /\ property_type r = property_type r0.
Proof.
  unfold handle_missing. rewrite !in_map_iff.
  intros (r3 & <- & H3). apply in_map_iff in H3. destruct H3 as (r2 & <- & H2).
  apply in_map_iff in H2. destruct H2 as (r1 & <- & H1).
  apply in_map_iff in H1. destruct H1 as (r0 & <- & H0).
  exists r0. repeat split. exact H0.
Qed.

Lemma astype_Int64_In (D S : Type) (df : list (Listing D S (option Q)))
    (df' : list (Listing D S (option Z))) (r' : Listing D S (option Z)) :
  astype_Int64 df = Ok df' -> In r' df' ->
  exists r b, In r df /\ r' = set_bedrooms b r.
Proof.
  revert df'. induction df as [| r df IH]; intros df'; simpl.
  - intros H. injection H as <-. intros [].
  - destruct (to_Int64 (bedrooms r)) as [b | e]; simpl; [| discriminate].
    destruct (astype_Int64 df) as [t | e]; simpl; [| discriminate].
    intros H. injection H as <-. intros [<- | Hin].
    + exists r, b. split; [left |]; reflexivity.
    + destruct (IH t eq_refl Hin) as (r0 & b0 & H0 & E).
      exists r0, b0. split; [right |]; assumption.
Qed.

(** A row that reaches the outlier step is a row of the CSV whose date
    parsed, with its text trimmed and capitalised and its price imputed. *)
Lemma before_outliers_In (df : RawFrame)
    (pre : list (Listing Timestamp string (option Z)))
    (r : Listing Timestamp string (option Z)) :
  before_outliers df = Ok pre -> In r pre ->
  exists raw,
    In raw (rows df)
    /\ location r = title (strip (fill_unknown (location raw)))
    /\ property_type r = title (strip (fill_unknown (property_type raw)))
    /\ price r = impute_median
                   (List.map (@price _ _ _) (standardize_dates (rows df)))
                   (price raw).
Proof.
  unfold before_outliers, convert_types.
  destruct (astype_Int64 _) as [df' |] eqn:E; simpl; [| discriminate].
  intros H. injection H as <-. rewrite filter_In. intros [Hin _].
  destruct (astype_Int64_In _ _ _ _ _ E Hin) as (r2 & b & H2 & ->).
  unfold standardize_text in H2. apply in_map_iff in H2.
  destruct H2 as (r1 & <- & H1).
  destruct (handle_missing_In _ _ _ _ H1) as (r0 & H0 & Ep & El & Et).
  destruct (standardize_dates_In _ _ _ _ H0) as (raw & Hraw & _ & Er).
  exists raw. simpl. rewrite El, Et, Ep, Er. repeat split. exact Hraw.
Qed.

(** The text columns of the normalised frame are trimmed. *)
Lemma normalized_text_trimmed (df : RawFrame) (created updated : Timestamp)
    (out : list NormRow) (r : NormRow) :
  normalize_dataframe df created updated = Ok out -> In r out ->
  strip (location (cols r)) = location (cols r)
  /\ strip (property_type (cols r)) = property_type (cols r).
Proof.
  intros H Hin.
  destruct (@normalize_dataframe_row _ _ _ _ _ H Hin) as (pre & r0 & Hpre & Hr0 & ->).
  apply ensure_minimums_In in Hr0. destruct Hr0 as (Hr0 & _).
  apply remove_outliers_In in Hr0. destruct Hr0 as [Hr0 _].
  destruct (before_outliers_In _ _ _ Hpre Hr0) as (raw & _ & El & Et & _).
  simpl. rewrite El, Et. split; apply strip_title_strip.
Qed.

Lemma insert_In (a x : Q) (l : list Q) : In x (insert a l) -> x = a \/ In x l.
Proof.
  induction l as [| b l IH]; simpl.
  - intros [H | []]. left. symmetry. exact H.
  - destruct (Qle_bool a b); simpl.
    + intros [H | H]; [left; symmetry; exact H | right; exact H].
    + intros [H | H]; [right; left; exact H |].
      destruct (IH H) as [E | Hin]; [left; exact E | right; right; exact Hin].
Qed.

Lemma sort_In (x : Q) (l : list Q) : In x (sort l) -> In x l.
Proof.
  induction l as [| a l IH]; simpl; [tauto |].
  intros H. destruct (insert_In _ _ _ H) as [-> | Hin]; [left; reflexivity |].
  right. apply IH, Hin.
Qed.

Lemma nth_nonpositive (l : list Q) (i : nat) :
  (forall x, In x l -> x <= 0) -> nth i l 0 <= 0.
Proof.
  intros H. destruct (nth_in_or_default i l 0) as [Hin | ->].
  - apply H, Hin.
  - apply Qle_refl.
Qed.

(** The median of prices that are all zero or negative is zero or
    negative. *)
Lemma median_nonpositive (col : list (option Q)) (m : Q) :
  (forall a, In (Some a) col -> a <= 0) -> median col = Some m -> m <= 0.
Proof.
  intros H. unfold median.
  assert (Hs : forall x, In x (sort (present col)) -> x <= 0).
  { intros x Hx. apply H, present_In, sort_In, Hx. }
  destruct (List.length (sort (present col))) as [| n]; [discriminate |].
  destruct (Nat.odd (S n)); intros E; injection E as <-.
  - apply nth_nonpositive, Hs.
  - pose proof (nth_nonpositive _ (Nat.div (S n) 2 - 1) Hs) as A.
    pose proof (nth_nonpositive _ (Nat.div (S n) 2) Hs) as B.
    apply Qle_shift_div_r; [reflexivity |].
    apply (Qle_trans _ (0 + 0));
      [apply Qplus_le_compat; assumption | vm_compute; discriminate].
Qed.

(** For example, when every price of the batch is zero or negative, no row
    passes the filters. *)
Lemma nonpositive_prices_survive_nothing (df : RawFrame)
    (created updated : Timestamp) (out : list NormRow) :
  (forall raw a, In raw (rows df) -> price raw = Some a -> a <= 0) ->
  surviving df created updated = Ok out -> out = [].
Proof.
  intros Hneg H. apply surviving_inv in H. destruct H as (pre & Hpre & ->).
  destruct (ensure_minimums (remove_outliers pre)) as [| r0 l] eqn:E;
    [reflexivity | exfalso].
  assert (Hr0 : In r0 (ensure_minimums (remove_outliers pre)))
    by (rewrite E; left; reflexivity).
  apply ensure_minimums_In in Hr0. destruct Hr0 as (Hr0 & Hp & _).
  apply remove_outliers_In in Hr0. destruct Hr0 as [Hr0 _].
  destruct (before_outliers_In _ _ _ Hpre Hr0) as (raw & Hraw & _ & _ & Ep).
  apply gt_true in Hp. destruct Hp as (p & Eq & Lp).
  assert (Hle : p <= 0).
  { rewrite Eq in Ep. unfold impute_median, fillna in Ep.
    destruct (price raw) as [a |] eqn:Ea.
    - assert (p = a) as ->
        by (destruct (0 <? isna_sum _)%nat; injection Ep as ->; reflexivity).
      exact (Hneg raw a Hraw Ea).
    - destruct (0 <? isna_sum _)%nat; [| discriminate].
      symmetry in Ep. apply median_nonpositive in Ep; [exact Ep |].
      intros a Ha. apply standardize_dates_price in Ha.
      apply in_map_iff in Ha. destruct Ha as (raw' & Ea' & Hraw').
      exact (Hneg raw' a Hraw' Ea'). }
  exact (Qlt_not_le _ _ Lp Hle).
Qed.

End Provenance.

(** ** Rejected batches *)

(** C2.  When no row passes the normalisation pipeline, the normaliser
    raises the error "All rows were filtered out during transformation!"
    and the invocation ends with it: the dimension tables and the fact
    table are as they were before. *)
Theorem rejected_batch_loads_nothing
    (download_as_text : string -> string -> result string)
    (read_csv : string -> result Csv) (utcnow : nat -> Calendar.Timestamp)
    (event : Event) (w : Warehouse) (content : string) (csv : Csv) :
  endswith (lower (name event)) ".csv" = true ->
  download_as_text (bucket event) (name event) = Ok content ->
  read_csv content = Ok csv ->
  missing_columns EtlMain.required_columns (columns csv) = [] ->
  Transform.surviving (frame csv) (utcnow 0%nat) (utcnow 1%nat) = Ok [] ->
  Transform.normalize_dataframe (frame csv) (utcnow 0%nat) (utcnow 1%nat)
    = Raise (ValueError "All rows were filtered out during transformation!")
  /\ EtlMain.process_csv download_as_text read_csv utcnow event w
     = (w, Raise (ValueError "All rows were filtered out during transformation!")).
Proof.
  intros Hcsv Hd Hr Hm Hs.
  assert (Hn : Transform.normalize_dataframe (frame csv) (utcnow 0%nat) (utcnow 1%nat)
               = Raise (ValueError "All rows were filtered out during transformation!")).
  { unfold Transform.normalize_dataframe. rewrite Hs. reflexivity. }
  split; [exact Hn |].
  unfold EtlMain.process_csv, EtlMain.extract_transform.
  rewrite Hcsv, Hd. cbn [negb bind].
  change (lookup_global EtlMain.module_globals "pd") with (Ok tt).
  change (lookup_global EtlMain.module_globals "io") with (Ok tt).
  cbn [bind]. rewrite Hr. cbn [bind]. rewrite Hm, Hn. reflexivity.
Qed.

Lemma rejected_batch_loads_nothing_witness :
  endswith (lower (name Samples.upload)) ".csv" = true
  /\ Transform.surviving Samples.no_positive_price (Samples.clock 0) (Samples.clock 1)
     = Ok []
  /\ EtlMain.process_csv Samples.download_ok (Samples.read_as Samples.no_positive_price)
       Samples.clock Samples.upload Samples.empty_warehouse
     = (Samples.empty_warehouse,
        Raise (ValueError "All rows were filtered out during transformation!")).
Proof.
  split; [reflexivity |]. split; [vm_compute; reflexivity |].
  apply (rejected_batch_loads_nothing Samples.download_ok
           (Samples.read_as Samples.no_positive_price) Samples.clock Samples.upload
           Samples.empty_warehouse
           "list_date,location,property_type,price,bedrooms,bathrooms,sqft"
           (mkCsv EtlMain.required_columns Samples.no_positive_price));
    vm_compute; reflexivity.
Defined.

(** A batch whose prices are all zero or negative is rejected, whatever
    else it holds: the normaliser never returns a frame for it. *)
Lemma nonpositive_prices_rejected (df : RawFrame)
    (created updated : Calendar.Timestamp) :
  (forall raw a, In raw (rows df) -> price raw = Some a -> a <= 0) ->
  exists e, Transform.normalize_dataframe df created updated = Raise e.
Proof.
  intros Hneg. unfold Transform.normalize_dataframe.
  destruct (Transform.surviving df created updated) as [out | e] eqn:E; simpl.
  - rewrite (nonpositive_prices_survive_nothing df created updated out Hneg E).
    eexists. reflexivity.
  - exists e. reflexivity.
Qed.

Lemma normalized_minimums_witness :
  Transform.normalize_dataframe Samples.scenario1 1%Z 2%Z = Ok [Samples.scenario1_row]
  /\ In Samples.scenario1_row [Samples.scenario1_row]
  /\ exists p s b ba,
       price (cols Samples.scenario1_row) = Some p /\ 0 < p
       /\ sqft (cols Samples.scenario1_row) = Some s /\ 0 < s
       /\ bedrooms (cols Samples.scenario1_row) = Some b /\ (0 <= b)%Z
       /\ bathrooms (cols Samples.scenario1_row) = Some ba /\ 0 < ba.
Proof.
  assert (H : Transform.normalize_dataframe Samples.scenario1 1%Z 2%Z
              = Ok [Samples.scenario1_row]) by (vm_compute; reflexivity).
  split; [exact H |]. split; [left; reflexivity |].
  apply (normalized_minimums Samples.scenario1 1%Z 2%Z [Samples.scenario1_row]
           Samples.scenario1_row H).
  left; reflexivity.
Defined.

Lemma outlier_fence_witness :
  Transform.normalize_dataframe Samples.with_outlier 1%Z 2%Z
    = Ok Samples.with_outlier_normalized
  /\ In Samples.cheapest_row Samples.with_outlier_normalized
  /\ exists pre q1 q3 p,
       Transform.before_outliers Samples.with_outlier = Ok pre
       /\ Num.quantile (1 # 4) (List.map (@price _ _ _) pre) = Some q1
       /\ Num.quantile (3 # 4) (List.map (@price _ _ _) pre) = Some q3
       /\ price (cols Samples.cheapest_row) = Some p
       /\ q1 - (3 # 2) * (q3 - q1) <= p
       /\ p <= q3 + (3 # 2) * (q3 - q1).
Proof.
  assert (H : Transform.normalize_dataframe Samples.with_outlier 1%Z 2%Z
              = Ok Samples.with_outlier_normalized) by (vm_compute; reflexivity).
  split; [exact H |]. split; [left; reflexivity |].
  apply (outlier_fence Samples.with_outlier 1%Z 2%Z Samples.with_outlier_normalized
           Samples.cheapest_row H).
  left; reflexivity.
Defined.

Lemma location_row_city_state_witness :
  In "Sharjah" (List.map (fun r => location (cols r)) Samples.two_days_normalized)
  /\ strip "Sharjah" = "Sharjah"
  /\ exists row,
       List.filter (fun r => String.eqb (DimLocation.location r) "Sharjah")
                   (Load.location_rows Samples.two_days_normalized 3%Z) = [row]
       /\ DimLocation.location row = "Sharjah"
       /\ (contains "," "Sharjah" = true ->
             exists a b, "Sharjah" = (a ++ String comma b)%string
                         /\ contains "," a = false
                         /\ DimLocation.city row = strip a
                         /\ DimLocation.state row = Some (strip b))
       /\ (contains "," "Sharjah" = false ->
             DimLocation.city row = "Sharjah" /\ DimLocation.state row = None).
Proof.
  split; [right; left; reflexivity |]. split; [reflexivity |].
  apply (location_row_city_state Samples.two_days_normalized 3%Z "Sharjah").
  - right; left; reflexivity.
  - reflexivity.
Defined.

(** ** The date dimension *)

Section DateSpine.

Import Calendar.
Local Open Scope Z_scope.

Lemma day_ns_pos : 0 < day_ns.
Proof. reflexivity. Qed.

Lemma days_of_add (t k : Z) : days_of (t + k * day_ns) = days_of t + k.
Proof. unfold days_of. apply Z.div_add. discriminate. Qed.

Lemma days_of_mono (s t : Timestamp) : s <= t -> days_of s <= days_of t.
Proof. intros H. apply Z.div_le_mono; [exact day_ns_pos | exact H]. Qed.

Lemma days_of_midnight (d : Z) : days_of (midnight d) = d.
Proof. unfold days_of, midnight. apply Z.div_mul. discriminate. Qed.

Lemma timestamp_split (t : Timestamp) :
  t = days_of t * day_ns + time_of_day t /\ 0 <= time_of_day t < day_ns.
Proof.
  unfold days_of, time_of_day. split.
  - rewrite Z.mul_comm. apply Z.div_mod. discriminate.
  - apply Z.mod_pos_bound. exact day_ns_pos.
Qed.

(** The number of whole days from [lo] to [hi] is the difference of their
    day numbers, less one when [hi] is earlier in its day than [lo]. *)
Lemma whole_days (lo hi : Timestamp) :
  (hi - lo) / day_ns
  = days_of hi - days_of lo - (if time_of_day hi <? time_of_day lo then 1 else 0).
Proof.
  destruct (timestamp_split lo) as [El Bl], (timestamp_split hi) as [Eh Bh].
  destruct (time_of_day hi <? time_of_day lo) eqn:E.
  - apply Z.ltb_lt in E. symmetry.
    apply (Z.div_unique _ _ _ (time_of_day hi - time_of_day lo + day_ns)); lia.
  - apply Z.ltb_ge in E. symmetry.
    apply (Z.div_unique _ _ _ (time_of_day hi - time_of_day lo)); lia.
Qed.

Lemma civil_year_of_era (doe : Z) :
  0 <= doe <= 146096 ->
  let yoe := (doe - doe / 1460 + doe / 36524 - doe / 146096) / 365 in
  0 <= yoe <= 399 /\ 0 <= doe - (365 * yoe + yoe / 4 - yoe / 100) <= 365.
Proof. intros H. cbv zeta. Z.div_mod_to_equations. lia. Qed.

(** The date of a day number is a date of the calendar, and the day number
    of that date is the one it came from. *)
Lemma civil_from_days_inverse (z : Z) :
  let '(y, m, d) := civil_from_days z in
  days_from_civil y m d = z /\ 1 <= m <= 12 /\ 1 <= d <= 31.
Proof.
  unfold civil_from_days, days_from_civil. cbv zeta.
  set (z1 := z + 719468).
  set (era := z1 / 146097).
  set (doe := z1 - era * 146097).
  assert (Hdoe : 0 <= doe <= 146096)
    by (subst doe era; Z.div_mod_to_equations; lia).
  pose proof (civil_year_of_era doe Hdoe) as Hy. cbv zeta in Hy.
  set (yoe := (doe - doe / 1460 + doe / 36524 - doe / 146096) / 365) in *.
  set (doy := doe - (365 * yoe + yoe / 4 - yoe / 100)) in *.
  set (mp := (5 * doy + 2) / 153).
  assert (Hmp : 0 <= mp <= 11) by (subst mp; Z.div_mod_to_equations; lia).
  assert (Hera : (yoe + era * 400) / 400 = era).
  { symmetry. apply (Z.div_unique _ _ _ yoe); lia. }
  assert (Edoy : doy = doe - (365 * yoe + yoe / 4 - yoe / 100)) by reflexivity.
  assert (Edoe : doe = z1 - era * 146097) by reflexivity.
  assert (Ez : z1 = z + 719468) by reflexivity.
  assert (Emp : mp = (5 * doy + 2) / 153) by reflexivity.
  clearbody mp doy yoe doe era z1.
  destruct (mp <? 10) eqn:E1.
  - apply Z.ltb_lt in E1.
    destruct (mp + 3 <=? 2) eqn:E2; [apply Z.leb_le in E2; lia |].
    destruct (2 <? mp + 3) eqn:E3; [| apply Z.ltb_ge in E3; lia].
    rewrite Hera. replace (mp + 3 - 3) with mp by lia.
    Z.div_mod_to_equations. lia.
  - apply Z.ltb_ge in E1.
    destruct (mp - 9 <=? 2) eqn:E2; [| apply Z.leb_gt in E2; lia].
    destruct (2 <? mp - 9) eqn:E3; [apply Z.ltb_lt in E3; lia |].
    replace (yoe + era * 400 + 1 - 1) with (yoe + era * 400) by lia.
    rewrite Hera. replace (mp - 9 + 9) with mp by lia.
    Z.div_mod_to_equations. lia.
Qed.

(** Different days have different YYYYMMDD numbers. *)
Lemma yyyymmdd_injective (z z' : Z) : yyyymmdd z = yyyymmdd z' -> z = z'.
Proof.
  unfold yyyymmdd.
  pose proof (civil_from_days_inverse z) as H.
  pose proof (civil_from_days_inverse z') as H'.
  destruct (civil_from_days z) as [[y m] d], (civil_from_days z') as [[y' m'] d'].
  destruct H as (E & Hm & Hd), H' as (E' & Hm' & Hd').
  intros He. assert (y = y' /\ m = m' /\ d = d') as (-> & -> & ->) by lia.
  congruence.
Qed.

Lemma date_range_days (lo hi : Timestamp) :
  List.map days_of (date_range lo hi)
  = List.map (fun k => days_of lo + Z.of_nat k)
             (seq 0 (Z.to_nat ((hi - lo) / day_ns + 1))).
Proof.
  unfold date_range. rewrite List.map_map. apply List.map_ext.
  intros k. apply days_of_add.
Qed.

(** The days of the spine: from the day of [lo], as many as there are
    whole days between [lo] and [hi], and one more. *)
Lemma date_range_day_In (lo hi : Timestamp) (d : Z) :
  In d (List.map days_of (date_range lo hi))
  <-> days_of lo <= d <= days_of lo + (hi - lo) / day_ns.
Proof.
  rewrite date_range_days, in_map_iff. split.
  - intros (k & <- & Hk). apply in_seq in Hk. lia.
  - intros H. exists (Z.to_nat (d - days_of lo)). split; [lia |].
    apply in_seq. lia.
Qed.

Lemma minimum_defined (l : list Timestamp) (x : Timestamp) :
  In x l -> exists m, minimum l = Some m.
Proof.
  destruct l as [| a l]; [intros [] |]. intros _. simpl.
  destruct (minimum l); eexists; reflexivity.
Qed.

Lemma maximum_defined (l : list Timestamp) (x : Timestamp) :
  In x l -> exists m, maximum l = Some m.
Proof.
  destruct l as [| a l]; [intros [] |]. intros _. simpl.
  destruct (maximum l); eexists; reflexivity.
Qed.

Lemma minimum_spec (l : list Timestamp) (m : Timestamp) :
  minimum l = Some m -> In m l /\ forall x, In x l -> m <= x.
Proof.
  revert m. induction l as [| a l IH]; simpl; [discriminate |].
  intros m. destruct (minimum l) as [b |] eqn:Em.
  - intros E. injection E as <-. destruct (IH b eq_refl) as [Hin Hle]. split.
    + destruct (Z.min_spec a b) as [[_ ->] | [_ ->]]; [left | right]; tauto.
    + intros x [<- | Hx]; [lia |]. specialize (Hle x Hx). lia.
  - intros E. injection E as <-. split; [left; reflexivity |].
    intros x [<- | Hx]; [lia |].
    destruct (minimum_defined l x Hx) as (b & Eb). congruence.
Qed.

Lemma maximum_spec (l : list Timestamp) (m : Timestamp) :
  maximum l = Some m -> In m l /\ forall x, In x l -> x <= m.
Proof.
  revert m. induction l as [| a l IH]; simpl; [discriminate |].
  intros m. destruct (maximum l) as [b |] eqn:Em.
  - intros E. injection E as <-. destruct (IH b eq_refl) as [Hin Hle]. split.
    + destruct (Z.max_spec a b) as [[_ ->] | [_ ->]]; [right | left]; tauto.
    + intros x [<- | Hx]; [lia |]. specialize (Hle x Hx). lia.
  - intros E. injection E as <-. split; [left; reflexivity |].
    intros x [<- | Hx]; [lia |].
    destruct (maximum_defined l x Hx) as (b & Eb). congruence.
Qed.

Lemma date_rows_ids (lo hi : Timestamp) :
  List.map DimDate.date_id (Load.date_rows lo hi)
  = List.map yyyymmdd (List.map days_of (date_range lo hi)).
Proof.
  unfold Load.date_rows. rewrite !List.map_map. reflexivity.
Qed.

Lemma date_rows_days (lo hi : Timestamp) :
  List.map (fun r => days_of (DimDate.full_date r)) (Load.date_rows lo hi)
  = List.map days_of (date_range lo hi).
Proof.
  unfold Load.date_rows. rewrite !List.map_map. reflexivity.
Qed.

Lemma date_row_id (lo hi : Timestamp) (row : DimDate.row) :
  In row (Load.date_rows lo hi) ->
  DimDate.date_id row = yyyymmdd (days_of (DimDate.full_date row)).
Proof.
  unfold Load.date_rows. rewrite in_map_iff. intros (t & <- & _). reflexivity.
Qed.

End DateSpine.

Section DimensionBuilder.

Import Calendar.
Local Open Scope Z_scope.

Variable df : list NormRow.

Let dates : list Timestamp := List.map (fun r => list_date (cols r)) df.


Lemma create_dimension_tables_inv (now_location now_type : Timestamp)
    (w w' : Warehouse) (tables : DimTables) :
  Load.create_dimension_tables df now_location now_type w = (w', Ok tables) ->
  exists lo hi,
    minimum dates = Some lo /\ maximum dates = Some hi
    /\ tables = mkDimTables (Load.location_rows df now_location)
                            (Load.property_type_rows df now_type)
                            (Load.date_rows lo hi).
Proof.
  unfold Load.create_dimension_tables. fold dates.
  destruct (minimum dates) as [lo |]; [| discriminate].
  destruct (maximum dates) as [hi |]; [| discriminate].
  intros H. injection H as _ <-. exists lo, hi. repeat split.
Qed.

(** The spine has one row for each day from the day of the earliest
    listing to the day of the latest one, provided the latest listing is
    not earlier in its day than the earliest is in its own; this is so in
    particular when the dates carry no time of day. *)
Lemma date_spine_complete (lo hi : Timestamp) (d : Z) :
  minimum dates = Some lo -> maximum dates = Some hi ->
  time_of_day lo <= time_of_day hi ->
  days_of lo <= d <= days_of hi ->
  exists row,
    List.filter (fun r => DimDate.date_id r =? yyyymmdd d) (Load.date_rows lo hi)
    = [row]
    /\ days_of (DimDate.full_date row) = d
    /\ DimDate.date_id row = yyyymmdd d.
Proof.
  intros Elo Ehi Ht Hd.
  assert (Hin : In d (List.map (fun r => days_of (DimDate.full_date r))
                               (Load.date_rows lo hi))).
  { rewrite date_rows_days. apply date_range_day_In.
    rewrite whole_days. destruct (time_of_day hi <? time_of_day lo) eqn:E;
      [apply Z.ltb_lt in E |]; lia. }
  apply in_map_iff in Hin. destruct Hin as (row & Hrow & Hin).
  assert (Hid : DimDate.date_id row = yyyymmdd d)
    by (rewrite (date_row_id _ _ _ Hin), Hrow; reflexivity).
  exists row. split; [| split; assumption].
  rewrite <- Hid.
  apply (filter_key_unique _ _ _ DimDate.date_id Z.eqb_eq); [| exact Hin].
  rewrite date_rows_ids, date_range_days.
  apply Finite.Injective_map_NoDup; [exact yyyymmdd_injective |].
  apply Finite.Injective_map_NoDup; [| apply seq_NoDup].
  intros i j. lia.
Qed.

Lemma dates_without_time_aligned (lo hi : Timestamp) :
  (forall r, In r df -> time_of_day (list_date (cols r)) = 0) ->
  minimum dates = Some lo -> maximum dates = Some hi ->
  time_of_day lo <= time_of_day hi.
Proof.
  intros H Elo Ehi.
  destruct (minimum_spec _ _ Elo) as [Hlo _], (maximum_spec _ _ Ehi) as [Hhi _].
  apply in_map_iff in Hlo, Hhi.
  destruct Hlo as (r & <- & Hr), Hhi as (r' & <- & Hr').
  rewrite (H r Hr), (H r' Hr'). lia.
Qed.

(** Without that proviso the last day is left out. *)
Lemma date_spine_last_day (lo hi : Timestamp) :
  time_of_day hi < time_of_day lo ->
  ~ In (days_of hi) (List.map (fun r => days_of (DimDate.full_date r))
                              (Load.date_rows lo hi)).
Proof.
  intros Ht. rewrite date_rows_days, date_range_day_In, whole_days.
  apply Z.ltb_lt in Ht. rewrite Ht. lia.
Qed.

End DimensionBuilder.

(** C4.  For the batch of two listings entered at noon on 2024-01-15 and at
    06:00 on 2024-01-16, the date dimension has the single row 20240115:
    the day of the latest listing, 20240116, has no row.  [pd.date_range]
    steps by whole days from the earliest timestamp and stops before the
    latest one. *)
Theorem date_spine_misses_last_day :
  Transform.normalize_dataframe Samples.two_days 1%Z 2%Z
    = Ok Samples.two_days_normalized
  /\ Calendar.strftime_Ymd_int (list_date (cols Samples.morning_row)) = 20240116%Z
  /\ exists w tables,
       Load.create_dimension_tables Samples.two_days_normalized 3%Z 4%Z
         Samples.empty_warehouse = (w, Ok tables)
       /\ List.map DimDate.date_id (dt_date tables) = [20240115%Z]
       /\ ~ In 20240116%Z (List.map DimDate.date_id (dt_date tables)).
Proof.
  split; [vm_compute; reflexivity |]. split; [vm_compute; reflexivity |].
  eexists. eexists. split; [vm_compute; reflexivity |].
  split; [vm_compute; reflexivity |].
  simpl. intros [H | []]. discriminate H.
Qed.

(** ** The fact table *)

Section LeftJoin.

Variables (A K V : Type) (eqb : K -> K -> bool) (key : A -> K).
Variable left : list A.
Variable right : list (K * V).

(** A row of a left join is a left row, with the value of a right row of
    the same key, or with none when no right row has that key. *)
Lemma merge_left_In (a : A) (v : option V) :
  In (a, v) (Load.merge_left eqb left key right) ->
  In a left
  /\ match v with
     | Some x => exists k, In (k, x) right /\ eqb (key a) k = true
     | None => forall kv, In kv right -> eqb (key a) (fst kv) = false
     end.
Proof.
  unfold Load.merge_left. rewrite in_flat_map. intros (a' & Ha & H).
  destruct (List.filter (fun kv => eqb (key a') (fst kv)) right) as [| m ms] eqn:E.
  - destruct H as [H | []]. injection H as <- <-. split; [exact Ha |].
    intros kv Hkv. destruct (eqb (key a') (fst kv)) eqn:Ek; [| reflexivity].
    assert (Hf : In kv (List.filter (fun kv => eqb (key a') (fst kv)) right))
      by (apply filter_In; tauto).
    rewrite E in Hf. destruct Hf.
  - apply in_map_iff in H. destruct H as (kv & H & Hkv).
    injection H as <- <-. split; [exact Ha |].
    rewrite <- E in Hkv. apply filter_In in Hkv. destruct kv as [k x].
    exists k. exact Hkv.
Qed.

Lemma merge_left_matched (a : A) (v : option V) :
  (forall a, In a left -> exists kv, In kv right /\ eqb (key a) (fst kv) = true) ->
  In (a, v) (Load.merge_left eqb left key right) -> v <> None.
Proof.
  intros Hall H. apply merge_left_In in H. destruct H as [Ha Hv].
  destruct v as [x |]; [discriminate |].
  destruct (Hall a Ha) as (kv & Hkv & E). rewrite (Hv kv Hkv) in E. discriminate E.
Qed.

End LeftJoin.

Lemma number_from_In (A : Type) (l : list A) (k i : Z) (x : A) :
  In (i, x) (Load.number_from k l) -> In x l.
Proof.
  intros H. rewrite <- (number_from_snd A l k).
  apply (in_map snd) in H. exact H.
Qed.

Lemma property_type_rows_keys (df : list NormRow) (now : Calendar.Timestamp) :
  List.map DimPropertyType.property_type (Load.property_type_rows df now)
  = Load.drop_duplicates (List.map (fun r => property_type (cols r)) df).
Proof.
  unfold Load.property_type_rows. rewrite List.map_map.
  rewrite <- (number_from_snd _ (Load.drop_duplicates _) 1%Z) at 2.
  apply List.map_ext. intros [i ty]. reflexivity.
Qed.

Lemma property_type_rows_ids (df : list NormRow) (now : Calendar.Timestamp) :
  List.map DimPropertyType.property_type_id (Load.property_type_rows df now)
  = List.map (fun i => (1 + Z.of_nat i)%Z)
             (seq 0 (List.length (Load.drop_duplicates
                                    (List.map (fun r => property_type (cols r)) df)))).
Proof.
  unfold Load.property_type_rows. rewrite List.map_map.
  rewrite <- number_from_fst.
  apply List.map_ext. intros [i ty]. reflexivity.
Qed.

Section FactKeys.

Import Calendar.
Local Open Scope Z_scope.

Variables (df : list NormRow) (tables : DimTables).
Variables (now_location now_type : Timestamp) (w w' : Warehouse).
Hypothesis built :
  Load.create_dimension_tables df now_location now_type w = (w', Ok tables).

(** A fact row comes from a row of the batch and carries its three keys. *)
Lemma fact_rows_In (f : Fact.row) :
  In f (Load.fact_rows df tables) ->
  exists i r l t d,
    f = Load.fact_row i (r, l, t, d)
    /\ In (r, l, t, d)
          (Load.merge_left Z.eqb
             (Load.merge_left String.eqb
                (Load.merge_left String.eqb df (fun r => location (cols r))
                   (List.map (fun d => (DimLocation.location d, DimLocation.location_id d))
                             (dt_location tables)))
                (fun j => property_type (cols (fst j)))
                (List.map (fun d => (DimPropertyType.property_type d,
                                     DimPropertyType.property_type_id d))
                          (dt_property_type tables)))
             (fun j => strftime_Ymd_int (list_date (cols (fst (fst j)))))
             (List.map (fun d => (DimDate.date_id d, DimDate.date_id d))
                       (dt_date tables))).
Proof.
  unfold Load.fact_rows. rewrite in_map_iff.
  intros ([i [[[r l] t] d]] & <- & H). apply number_from_In in H.
  exists i, r, l, t, d. split; [reflexivity | exact H].
Qed.

(** The joins on the location and on the property type always find their
    row: both dimensions are built from the columns of the same batch. *)
Lemma fact_location_and_type_resolved (f : Fact.row) :
  In f (Load.fact_rows df tables) ->
  Fact.location_id f <> None /\ Fact.property_type_id f <> None.
Proof.
  intros H. destruct (fact_rows_In f H) as (i & r & l & t & d & -> & Hj). simpl.
  destruct (create_dimension_tables_inv df _ _ _ _ _ built) as (lo & hi & _ & _ & ->).
  simpl in Hj.
  apply merge_left_In in Hj. destruct Hj as [Hj _].
  pose proof Hj as Hj2. apply merge_left_In in Hj. destruct Hj as [Hj _].
  split.
  - revert Hj. apply merge_left_matched. intros a Ha.
    assert (Hk : In (location (cols a))
                    (List.map DimLocation.location (Load.location_rows df now_location))).
    { rewrite location_rows_keys. apply drop_duplicates_In.
      apply (in_map (fun r => location (cols r))), Ha. }
    apply in_map_iff in Hk. destruct Hk as (row & E & Hrow).
    exists (DimLocation.location row, DimLocation.location_id row). split.
    + apply (in_map (fun d => (DimLocation.location d, DimLocation.location_id d))), Hrow.
    + simpl. rewrite E. apply String.eqb_refl.
  - revert Hj2. apply merge_left_matched. intros [a la] Ha.
    apply merge_left_In in Ha. destruct Ha as [Ha _]. simpl.
    assert (Hk : In (property_type (cols a))
                    (List.map DimPropertyType.property_type
                              (Load.property_type_rows df now_type))).
    { rewrite property_type_rows_keys. apply drop_duplicates_In.
      apply (in_map (fun r => property_type (cols r))), Ha. }
    apply in_map_iff in Hk. destruct Hk as (row & E & Hrow).
    exists (DimPropertyType.property_type row, DimPropertyType.property_type_id row).
    split.
    + apply (in_map (fun d => (DimPropertyType.property_type d,
                               DimPropertyType.property_type_id d))), Hrow.
    + simpl. rewrite E. apply String.eqb_refl.
Qed.

(** The join on the date finds its row when the latest listing is not
    earlier in its day than the earliest one, as when the dates carry no
    time of day. *)
Lemma fact_date_resolved (f : Fact.row) :
  (forall lo hi,
     minimum (List.map (fun r => list_date (cols r)) df) = Some lo ->
     maximum (List.map (fun r => list_date (cols r)) df) = Some hi ->
     time_of_day lo <= time_of_day hi) ->
  In f (Load.fact_rows df tables) ->
  Fact.date_id f <> None.
Proof.
  intros Haligned H.
  destruct (fact_rows_In f H) as (i & r & l & t & d & -> & Hj). simpl.
  destruct (create_dimension_tables_inv df _ _ _ _ _ built)
    as (lo & hi & Elo & Ehi & ->).
  simpl in Hj. revert Hj. apply merge_left_matched. intros [[a la] ta] Ha.
  apply merge_left_In in Ha. destruct Ha as [Ha _].
  apply merge_left_In in Ha. destruct Ha as [Ha _]. simpl.
  pose proof (Haligned lo hi Elo Ehi) as Ht.
  destruct (minimum_spec _ _ Elo) as [_ Hlo], (maximum_spec _ _ Ehi) as [_ Hhi].
  assert (Hd : In (list_date (cols a)) (List.map (fun r => list_date (cols r)) df))
    by (apply (in_map (fun r => list_date (cols r))), Ha).
  specialize (Hlo _ Hd). specialize (Hhi _ Hd).
  assert (Hin : In (days_of (list_date (cols a)))
                   (List.map (fun r => days_of (DimDate.full_date r))
                             (Load.date_rows lo hi))).
  { rewrite date_rows_days. apply date_range_day_In. rewrite whole_days.
    apply days_of_mono in Hlo, Hhi.
    destruct (time_of_day hi <? time_of_day lo) eqn:E;
      [apply Z.ltb_lt in E |]; lia. }
  apply in_map_iff in Hin. destruct Hin as (row & E & Hrow).
  exists (DimDate.date_id row, DimDate.date_id row). split.
  - apply (in_map (fun d => (DimDate.date_id d, DimDate.date_id d))), Hrow.
  - simpl. rewrite (date_row_id _ _ _ Hrow), E. apply Z.eqb_refl.
Qed.

End FactKeys.

(** C9.  For the batch of two listings entered at noon on 2024-01-15 and at
    06:00 on 2024-01-16, the fact rows built from the dimension tables of
    the same run have their location and property type keys, but the
    second row has no date key: its day is not in the date dimension. *)
Theorem fact_date_key_unresolved :
  exists w tables,
    Load.create_dimension_tables Samples.two_days_normalized 3%Z 4%Z
      Samples.empty_warehouse = (w, Ok tables)
    /\ List.map Fact.location_id (Load.fact_rows Samples.two_days_normalized tables)
       = [Some 1%Z; Some 2%Z]
    /\ List.map Fact.property_type_id (Load.fact_rows Samples.two_days_normalized tables)
       = [Some 1%Z; Some 2%Z]
    /\ List.map Fact.date_id (Load.fact_rows Samples.two_days_normalized tables)
       = [Some 20240115%Z; None].
Proof.
  eexists. eexists. split; [vm_compute; reflexivity |].
  repeat split; vm_compute; reflexivity.
Qed.

(** ** Rebuilding the dimensions *)

Lemma location_rows_attributes (df : list NormRow) (now now' : Calendar.Timestamp) :
  List.map DimLocation.attributes (Load.location_rows df now)
  = List.map DimLocation.attributes (Load.location_rows df now').
Proof.
  rewrite !location_rows_unfold, !List.map_map. reflexivity.
Qed.

Lemma property_type_rows_attributes (df : list NormRow)
    (now now' : Calendar.Timestamp) :
  List.map DimPropertyType.attributes (Load.property_type_rows df now)
  = List.map DimPropertyType.attributes (Load.property_type_rows df now').
Proof.
  unfold Load.property_type_rows. rewrite !List.map_map.
  apply List.map_ext. intros [i ty]. reflexivity.
Qed.

(** Two runs at different times stamp different creation times: the
    tables of a second run differ from those of the first. *)
Lemma dimension_rebuild_differs_in_created_at :
  exists w1 tables1 w2 tables2,
    Load.create_dimension_tables Samples.two_days_normalized 3%Z 4%Z
      Samples.empty_warehouse = (w1, Ok tables1)
    /\ Load.create_dimension_tables Samples.two_days_normalized 5%Z 6%Z w1
       = (w2, Ok tables2)
    /\ dt_location tables1 <> dt_location tables2
    /\ dt_property_type tables1 <> dt_property_type tables2.
Proof.
  eexists. eexists. eexists. eexists.
  split; [vm_compute; reflexivity |]. split; [vm_compute; reflexivity |].
  split; vm_compute; intros H; discriminate H.
Qed.

(** C6, amended.  Two runs of the dimension builder on the same batch give
    location and property type tables that agree in every column other
    than created_at, and the same date table; the surrogate keys are 1, 2,
    ... in the order in which the locations and the property types first
    appear in the batch. *)
Theorem dimension_rebuild_same_but_created_at (df : list NormRow)
    (t1 t2 t1' t2' : Calendar.Timestamp) (w0 w1 w2 : Warehouse)
    (tables1 tables2 : DimTables) :
  Load.create_dimension_tables df t1 t2 w0 = (w1, Ok tables1) ->
  Load.create_dimension_tables df t1' t2' w1 = (w2, Ok tables2) ->
  List.map DimLocation.attributes (dt_location tables1)
    = List.map DimLocation.attributes (dt_location tables2)
  /\ List.map DimPropertyType.attributes (dt_property_type tables1)
     = List.map DimPropertyType.attributes (dt_property_type tables2)
  /\ dt_date tables1 = dt_date tables2
  /\ List.map DimLocation.location (dt_location tables1)
     = Load.drop_duplicates (List.map (fun r => location (cols r)) df)
  /\ List.map DimLocation.location_id (dt_location tables1)
     = List.map (fun i => (1 + Z.of_nat i)%Z)
                (seq 0 (List.length (dt_location tables1)))
  /\ List.map DimPropertyType.property_type (dt_property_type tables1)
     = Load.drop_duplicates (List.map (fun r => property_type (cols r)) df)
  /\ List.map DimPropertyType.property_type_id (dt_property_type tables1)
     = List.map (fun i => (1 + Z.of_nat i)%Z)
                (seq 0 (List.length (dt_property_type tables1))).
Proof.
  intros H1 H2.
  destruct (create_dimension_tables_inv df _ _ _ _ _ H1) as (lo & hi & Elo & Ehi & ->).
  destruct (create_dimension_tables_inv df _ _ _ _ _ H2) as (lo' & hi' & Elo' & Ehi' & ->).
  assert (lo' = lo) as -> by congruence. assert (hi' = hi) as -> by congruence.
  simpl. repeat split.
  - apply location_rows_attributes.
  - apply property_type_rows_attributes.
  - apply location_rows_keys.
  - rewrite location_rows_ids. f_equal. f_equal.
    rewrite <- (List.length_map DimLocation.location), location_rows_keys. reflexivity.
  - apply property_type_rows_keys.
  - rewrite property_type_rows_ids. f_equal. f_equal.
    rewrite <- (List.length_map DimPropertyType.property_type), property_type_rows_keys.
    reflexivity.
Qed.

Lemma dimension_rebuild_same_but_created_at_witness :
  exists w1 tables1 w2 tables2,
    Load.create_dimension_tables Samples.two_days_normalized 3%Z 4%Z
      Samples.empty_warehouse = (w1, Ok tables1)
    /\ Load.create_dimension_tables Samples.two_days_normalized 5%Z 6%Z w1
       = (w2, Ok tables2)
    /\ List.map DimLocation.attributes (dt_location tables1)
       = List.map DimLocation.attributes (dt_location tables2)
    /\ dt_date tables1 = dt_date tables2
    /\ List.map DimLocation.location_id (dt_location tables1) = [1%Z; 2%Z].
Proof.
  eexists. eexists. eexists. eexists.
  assert (H1 : Load.create_dimension_tables Samples.two_days_normalized 3%Z 4%Z
                 Samples.empty_warehouse
               = (mkWarehouse (Load.location_rows Samples.two_days_normalized 3%Z)
                    (Load.property_type_rows Samples.two_days_normalized 4%Z)
                    (Load.date_rows (Calendar.ymd_hms 19737 12 0 0)
                                    (Calendar.ymd_hms 19738 6 0 0)) [],
                  Ok (mkDimTables (Load.location_rows Samples.two_days_normalized 3%Z)
                        (Load.property_type_rows Samples.two_days_normalized 4%Z)
                        (Load.date_rows (Calendar.ymd_hms 19737 12 0 0)
                                        (Calendar.ymd_hms 19738 6 0 0)))))
    by (vm_compute; reflexivity).
  assert (H2 : Load.create_dimension_tables Samples.two_days_normalized 5%Z 6%Z
                 (mkWarehouse (Load.location_rows Samples.two_days_normalized 3%Z)
                    (Load.property_type_rows Samples.two_days_normalized 4%Z)
                    (Load.date_rows (Calendar.ymd_hms 19737 12 0 0)
                                    (Calendar.ymd_hms 19738 6 0 0)) [])
               = (mkWarehouse (Load.location_rows Samples.two_days_normalized 5%Z)
                    (Load.property_type_rows Samples.two_days_normalized 6%Z)
                    (Load.date_rows (Calendar.ymd_hms 19737 12 0 0)
                                    (Calendar.ymd_hms 19738 6 0 0)) [],
                  Ok (mkDimTables (Load.location_rows Samples.two_days_normalized 5%Z)
                        (Load.property_type_rows Samples.two_days_normalized 6%Z)
                        (Load.date_rows (Calendar.ymd_hms 19737 12 0 0)
                                        (Calendar.ymd_hms 19738 6 0 0)))))
    by (vm_compute; reflexivity).
  split; [exact H1 |]. split; [exact H2 |].
  destruct (dimension_rebuild_same_but_created_at _ _ _ _ _ _ _ _ _ _ H1 H2)
    as (A & _ & C & _ & E & _).
  split; [exact A |]. split; [exact C |]. exact E.
Defined.

(** ** The analytics report *)

Section Reporting.

Import Analytics.

Variable run_query : string -> result (list record).
Variable timestamp : string.
Variable upload_from_string : string -> blob -> result unit.

Lemma execute_length : List.length (execute_analytical_queries run_query) = 8%nat.
Proof. reflexivity. Qed.

(** The loop records the result of every query under its name: the records
    of a query that ran, the error of one that raised. *)
Lemma execute_records (query_name : string) :
  In query_name queries ->
  lookup query_name (execute_analytical_queries run_query)
  = Some (match run_query query_name with
          | Ok rs => Records rs
          | Raise e => ErrorDict (str_exn e)
          end).
Proof.
  unfold queries. simpl In. intros H.
  repeat (destruct H as [<- | H];
          [unfold execute_analytical_queries, queries; reflexivity |]).
  destruct H.
Qed.

Lemma when_present_error (res : results) (query_name msg : string)
    (body : entry -> result section) :
  lookup query_name res = Some (ErrorDict msg) ->
  when_present res query_name body
  = (s <- body (ErrorDict msg) ;; Ok [s]).
Proof. intros H. unfold when_present. rewrite H. reflexivity. Qed.

(** The report cannot be rendered from results that hold an error entry:
    the section of that query indexes the entry as a list of records. *)
Lemma report_of_failed_query (query_name : string) (e : exn) :
  In query_name queries ->
  run_query query_name = Raise e ->
  exists e', generate_html_report (execute_analytical_queries run_query) timestamp
             = Raise e'.
Proof.
  intros Hin Hq. pose proof (execute_records query_name Hin) as Hl.
  rewrite Hq in Hl. unfold generate_html_report.
  unfold queries in Hin. simpl In in Hin.
  repeat (destruct Hin as [<- | Hin];
          [repeat match goal with
                  | |- context [when_present ?r ?n ?b] =>
                      first [ rewrite (when_present_error r n (str_exn e) b Hl);
                              cbn [first table bind]; eexists; reflexivity
                            | destruct (when_present r n b);
                              cbn [bind]; [| eexists; reflexivity] ]
                  end |]).
  destruct Hin.
Qed.

(** X10.  When any of the eight queries fails the response is an error
    with status 500, and nothing is written to the bucket. *)
Lemma failed_query_gives_500 (query_name : string) (e : exn)
    (store : list (string * blob)) :
  In query_name queries ->
  run_query query_name = Raise e ->
  exists msg,
    generate_report run_query timestamp upload_from_string store
    = (store, (Error msg, 500%Z)).
Proof.
  intros Hin Hq. destruct (report_of_failed_query query_name e Hin Hq) as (e' & H).
  exists (str_exn e'). unfold generate_report, try_generate_report.
  rewrite H. reflexivity.
Qed.

End Reporting.

(** C5.  In a reporting run where the correlation query raises and the
    seven others return a record, the failure is recorded under the name of
    the query and the other seven results are kept; but rendering the
    report then raises KeyError at [results['price_correlations'][0]], and
    the response is an error with status 500, with no report written. *)
Theorem correlation_failure_gives_500 :
  Analytics.lookup "price_correlations"
    (Analytics.execute_analytical_queries Samples.correlation_fails)
    = Some (Analytics.ErrorDict "400 Division by zero")
  /\ (forall q, In q Analytics.queries -> q <> "price_correlations" ->
        Analytics.lookup q (Analytics.execute_analytical_queries Samples.correlation_fails)
        = Some (Analytics.Records [Samples.one_record]))
  /\ Analytics.generate_html_report
       (Analytics.execute_analytical_queries Samples.correlation_fails) "20240115_120000"
     = Raise (KeyError "0")
  /\ Analytics.generate_report Samples.correlation_fails "20240115_120000"
       Samples.upload_ok []
     = ([], (Analytics.Error "0", 500%Z)).
Proof.
  split; [reflexivity |]. split.
  - intros q Hq Hne. rewrite (execute_records Samples.correlation_fails q Hq).
    unfold Samples.correlation_fails.
    destruct (String.eqb q "price_correlations") eqn:E; [| reflexivity].
    apply String.eqb_eq in E. contradiction.
  - split; vm_compute; reflexivity.
Qed.

(** With no failing query the same run answers 200 and writes both
    reports. *)
Lemma report_succeeds_without_failure :
  exists store html json,
    Analytics.generate_report Samples.all_succeed "20240115_120000"
      Samples.upload_ok []
    = (store, (Analytics.Success "20240115_120000" html json 8, 200%Z))
    /\ List.length store = 2%nat.
Proof.
  eexists. eexists. eexists. split; vm_compute; reflexivity.
Qed.

(** ** The second entry point *)

Section SecondEntryPoint.

Variables Norm Dims : Type.
Variable download_as_text : string -> string -> result string.
Variable read_csv : string -> result Csv.
Variable normalize_dataframe : Csv -> result Norm.
Variable create_dimension_tables : Norm -> Warehouse -> Warehouse * result Dims.
Variable load_fact_table : Norm -> Dims -> Warehouse -> Warehouse * result Z.

(** main.py does not bind the name [io]. *)
Lemma io_is_not_bound :
  lookup_global LegacyMain.module_globals "io" = Raise (NameError "io")
  /\ lookup_global EtlMain.module_globals "io" = Ok tt.
Proof. split; reflexivity. Qed.

(** The statements before the load raise: the error of the download, or
    NameError once the text is there. *)
Lemma legacy_extract_raises (event : Event) :
  LegacyMain.extract_transform download_as_text read_csv normalize_dataframe event
  = match download_as_text (bucket event) (name event) with
    | Ok _ => Raise (NameError "io")
    | Raise e => Raise e
    end.
Proof.
  unfold LegacyMain.extract_transform.
  destruct (download_as_text (bucket event) (name event)); reflexivity.
Qed.

End SecondEntryPoint.

(** When the object cannot be downloaded, the error raised is that of the
    download, not a NameError. *)
Lemma legacy_download_error_is_raised :
  endswith (name Samples.upload) ".csv" = true
  /\ LegacyMain.process_csv Samples.download_not_found
       (Samples.read_as Samples.scenario1)
       (fun csv => Transform.normalize_dataframe (frame csv) 1%Z 2%Z)
       (fun df => Load.create_dimension_tables df 3%Z 4%Z)
       Load.load_fact_table Samples.upload Samples.empty_warehouse
     = (Samples.empty_warehouse, Raise (ExternalError "404 No such object"))
  /\ ExternalError "404 No such object" <> NameError "io".
Proof. repeat split. discriminate. Qed.

(** C10, amended.  For every event whose object name ends in ".csv", the
    invocation of main.py raises before any transformation or load: the
    NameError of the unbound name [io] as soon as the text of the object
    has been downloaded, the error of the download otherwise.  It never
    returns, and leaves the tables as they were, whatever the functions
    imported from [transform] and [load] are. *)
Theorem legacy_entry_point_never_succeeds (Norm Dims : Type)
    (download_as_text : string -> string -> result string)
    (read_csv : string -> result Csv)
    (normalize_dataframe : Csv -> result Norm)
    (create_dimension_tables : Norm -> Warehouse -> Warehouse * result Dims)
    (load_fact_table : Norm -> Dims -> Warehouse -> Warehouse * result Z)
    (event : Event) (w : Warehouse) :
  endswith (name event) ".csv" = true ->
  (forall content,
     download_as_text (bucket event) (name event) = Ok content ->
     LegacyMain.process_csv download_as_text read_csv normalize_dataframe
       create_dimension_tables load_fact_table event w
     = (w, Raise (NameError "io")))
  /\ (forall e,
        download_as_text (bucket event) (name event) = Raise e ->
        LegacyMain.process_csv download_as_text read_csv normalize_dataframe
          create_dimension_tables load_fact_table event w
        = (w, Raise e))
  /\ exists e,
       LegacyMain.process_csv download_as_text read_csv normalize_dataframe
         create_dimension_tables load_fact_table event w
       = (w, Raise e).
Proof.
  intros Hcsv. unfold LegacyMain.process_csv.
  rewrite Hcsv, legacy_extract_raises. cbn [negb].
  destruct (download_as_text (bucket event) (name event)) as [c | e].
  - split; [reflexivity |]. split; [discriminate |]. eexists. reflexivity.
  - split; [discriminate |]. split.
    + intros e' H. injection H as <-. reflexivity.
    + eexists. reflexivity.
Qed.

Lemma legacy_entry_point_never_succeeds_witness :
  endswith (name Samples.upload) ".csv" = true
  /\ LegacyMain.process_csv Samples.download_ok
       (Samples.read_as Samples.scenario1)
       (fun csv => Transform.normalize_dataframe (frame csv) 1%Z 2%Z)
       (fun df => Load.create_dimension_tables df 3%Z 4%Z)
       Load.load_fact_table Samples.upload Samples.empty_warehouse
     = (Samples.empty_warehouse, Raise (NameError "io")).
Proof.
  split; [reflexivity |].
  refine (proj1 (legacy_entry_point_never_succeeds _ _ Samples.download_ok
                   (Samples.read_as Samples.scenario1)
                   (fun csv => Transform.normalize_dataframe (frame csv) 1%Z 2%Z)
                   (fun df => Load.create_dimension_tables df 3%Z 4%Z)
                   Load.load_fact_table Samples.upload Samples.empty_warehouse
                   eq_refl)
                "list_date,location,property_type,price,bedrooms,bathrooms,sqft"
                eq_refl).
Defined.

(** The deployed entry point, which imports [io], processes the same
    upload. *)
Lemma etl_entry_point_succeeds :
  exists w,
    EtlMain.process_csv Samples.download_ok (Samples.read_as Samples.scenario1)
      Samples.clock Samples.upload Samples.empty_warehouse
    = (w, Ok ("Success", 200%Z))
    /\ List.length (fact_listings w) = 1%nat.
Proof. eexists. split; vm_compute; reflexivity. Qed.

(** ** The copies of transform.py and load.py beside main.py

    They are the modules main.py imports; since main.py never gets past its
    extraction step, they never run from it.  They differ from the deployed
    ones in what follows. *)

(** No minimum filter and no final validation: listings priced at zero or
    below are returned. *)
Remark legacy_normalizer_keeps_nonpositive_prices :
  exists r1 r2,
    LegacyTransform.normalize_dataframe
      (mkCsv LegacyTransform.required_cols Samples.no_positive_price) 1%Z
    = Ok [r1; r2]
    /\ price (LegacyTransform.cols r1) = Some 0
    /\ price (LegacyTransform.cols r2) = Some (-5).
Proof. eexists. eexists. repeat split. Qed.

(** No rule for studios or penthouses. *)
Remark legacy_categorize_property_examples :
  LegacyLoad.categorize_property "Studio" = "Other"
  /\ LegacyLoad.categorize_property "Penthouse Suite" = "Residential-House"
  /\ LegacyLoad.categorize_property "Cozy Flat" = "Residential-Apartment".
Proof. repeat split. Qed.

(** The split into city and state is not guarded: a batch in which no
    location has a comma makes it raise. *)
Remark legacy_split_without_comma :
  LegacyLoad.split_locations ["Sharjah"]
  = Raise (ValueError "Columns must be same length as key").
Proof. reflexivity. Qed.

(** * Further properties of the loader *)

Lemma surrogate_ids_NoDup (n : nat) :
  NoDup (List.map (fun i => (1 + Z.of_nat i)%Z) (seq 0 n)).
Proof.
  apply Finite.Injective_map_NoDup; [| apply seq_NoDup].
  intros i j. lia.
Qed.

Lemma date_rows_ids_NoDup (lo hi : Calendar.Timestamp) :
  NoDup (List.map DimDate.date_id (Load.date_rows lo hi)).
Proof.
  rewrite date_rows_ids, date_range_days.
  apply Finite.Injective_map_NoDup; [exact yyyymmdd_injective |].
  apply Finite.Injective_map_NoDup; [| apply seq_NoDup].
  intros i j. lia.
Qed.

(** X1.  In the tables the dimension builder returns, no two rows of a
    dimension share a natural key (location, property type, YYYYMMDD
    number) or a surrogate key, and every location and property type of the
    batch has its row. *)
Theorem dimension_keys_unique (df : list NormRow)
    (now_location now_type : Calendar.Timestamp) (w w' : Warehouse)
    (tables : DimTables) :
  Load.create_dimension_tables df now_location now_type w = (w', Ok tables) ->
  NoDup (List.map DimLocation.location (dt_location tables))
  /\ NoDup (List.map DimLocation.location_id (dt_location tables))
  /\ NoDup (List.map DimPropertyType.property_type (dt_property_type tables))
  /\ NoDup (List.map DimPropertyType.property_type_id (dt_property_type tables))
  /\ NoDup (List.map DimDate.date_id (dt_date tables))
  /\ (forall r, In r df ->
        In (location (cols r)) (List.map DimLocation.location (dt_location tables))
        /\ In (property_type (cols r))
              (List.map DimPropertyType.property_type (dt_property_type tables))).
Proof.
  intros H.
  destruct (create_dimension_tables_inv df _ _ _ _ _ H) as (lo & hi & _ & _ & ->).
  simpl. repeat split.
  - rewrite location_rows_keys. apply drop_duplicates_NoDup.
  - rewrite location_rows_ids. apply surrogate_ids_NoDup.
  - rewrite property_type_rows_keys. apply drop_duplicates_NoDup.
  - rewrite property_type_rows_ids. apply surrogate_ids_NoDup.
  - apply date_rows_ids_NoDup.
  - rewrite location_rows_keys. apply drop_duplicates_In.
    apply (in_map (fun r => location (cols r))). assumption.
  - rewrite property_type_rows_keys. apply drop_duplicates_In.
    apply (in_map (fun r => property_type (cols r))). assumption.
Qed.

Lemma two_days_tables :
  Load.create_dimension_tables Samples.two_days_normalized 3%Z 4%Z
    Samples.empty_warehouse
  = (mkWarehouse (Load.location_rows Samples.two_days_normalized 3%Z)
       (Load.property_type_rows Samples.two_days_normalized 4%Z)
       (Load.date_rows (Calendar.ymd_hms 19737 12 0 0) (Calendar.ymd_hms 19738 6 0 0))
       [],
     Ok (mkDimTables (Load.location_rows Samples.two_days_normalized 3%Z)
           (Load.property_type_rows Samples.two_days_normalized 4%Z)
           (Load.date_rows (Calendar.ymd_hms 19737 12 0 0)
                           (Calendar.ymd_hms 19738 6 0 0)))).
Proof. vm_compute. reflexivity. Defined.

Lemma dimension_keys_unique_witness :
  NoDup (List.map DimLocation.location
           (Load.location_rows Samples.two_days_normalized 3%Z))
  /\ NoDup (List.map DimDate.date_id
              (Load.date_rows (Calendar.ymd_hms 19737 12 0 0)
                              (Calendar.ymd_hms 19738 6 0 0))).
Proof.
  destruct (dimension_keys_unique _ _ _ _ _ _ two_days_tables)
    as (A & _ & _ & _ & E & _).
  split; [exact A | exact E].
Defined.

(** X2.  The category of every row of the property type dimension is one of
    Residential-Apartment, Residential-House and Other: no row is ever
    given Residential-Townhouse or Residential-Luxury.  Its type name is
    the property type itself. *)
Theorem property_type_rows_categories (df : list NormRow)
    (now : Calendar.Timestamp) (row : DimPropertyType.row) :
  In row (Load.property_type_rows df now) ->
  DimPropertyType.type_name row = DimPropertyType.property_type row
  /\ DimPropertyType.category row
     = Load.categorize_property (DimPropertyType.property_type row)
  /\ (DimPropertyType.category row = "Residential-Apartment"
      \/ DimPropertyType.category row = "Residential-House"
      \/ DimPropertyType.category row = "Other").
Proof.
  unfold Load.property_type_rows. rewrite in_map_iff.
  intros ([i ty] & <- & _). simpl. repeat split.
  apply categorize_property_range.
Qed.

Lemma property_type_rows_categories_witness :
  In (DimPropertyType.mk 2 "Penthouse Suite" "Penthouse Suite" "Residential-House" 4%Z)
     (Load.property_type_rows Samples.two_days_normalized 4%Z)
  /\ ("Residential-House" = "Residential-Apartment"
      \/ "Residential-House" = "Residential-House"
      \/ "Residential-House" = "Other").
Proof.
  assert (H : In (DimPropertyType.mk 2 "Penthouse Suite" "Penthouse Suite"
                    "Residential-House" 4%Z)
                 (Load.property_type_rows Samples.two_days_normalized 4%Z))
    by (right; left; reflexivity).
  split; [exact H |].
  exact (proj2 (proj2 (property_type_rows_categories _ _ _ H))).
Defined.

Section LeftJoinUniqueKeys.

Variables (A K V : Type) (eqb : K -> K -> bool) (key : A -> K).
Hypothesis eqb_eq : forall x y, eqb x y = true <-> x = y.
Variable right : list (K * V).
Hypothesis right_keys : NoDup (List.map fst right).

Lemma filter_no_key (l : list (K * V)) (k : K) :
  ~ In k (List.map fst l) -> List.filter (fun kv => eqb k (fst kv)) l = [].
Proof.
  induction l as [| [k' v] l IH]; simpl; [reflexivity |].
  intros N. destruct (eqb k k') eqn:E.
  - apply eqb_eq in E. subst k'. exfalso. apply N. left. reflexivity.
  - apply IH. intros Hin. apply N. right. exact Hin.
Qed.

Lemma filter_find_unique (k : K) :
  List.filter (fun kv => eqb k (fst kv)) right
  = match List.find (fun kv => eqb k (fst kv)) right with
    | Some kv => [kv]
    | None => []
    end.
Proof.
  clear key. induction right as [| [k' v] l IH]; simpl; [reflexivity |].
  simpl in right_keys. inversion right_keys as [| ? ? Hk Hl]; subst.
  destruct (eqb k k') eqn:E.
  - f_equal. apply eqb_eq in E. subst k'. apply filter_no_key, Hk.
  - apply IH. exact Hl.
Qed.

(** Against a right table with distinct keys, a left join keeps the left
    rows as they are, in order, each with the value found for its key. *)
Lemma merge_left_lookup (left : list A) :
  Load.merge_left eqb left key right
  = List.map (fun a => (a, option_map snd
                             (List.find (fun kv => eqb (key a) (fst kv)) right)))
             left.
Proof.
  induction left as [| a l IH]; [reflexivity |].
  change (Load.merge_left eqb (a :: l) key right)
    with ((match List.filter (fun kv => eqb (key a) (fst kv)) right with
           | [] => [(a, None)]
           | ms => List.map (fun kv => (a, Some (snd kv))) ms
           end ++ Load.merge_left eqb l key right)%list).
  rewrite IH, filter_find_unique. cbn [List.map].
  destruct (List.find (fun kv => eqb (key a) (fst kv)) right); reflexivity.
Qed.

End LeftJoinUniqueKeys.

Lemma number_from_map (A B : Type) (f : A -> B) (l : list A) (k : Z) :
  Load.number_from k (List.map f l)
  = List.map (fun ix => (fst ix, f (snd ix))) (Load.number_from k l).
Proof.
  revert k. induction l as [| x l IH]; intros k; simpl; [| rewrite IH]; reflexivity.
Qed.

Lemma number_from_Forall2 (A B : Type) (R : A -> B -> Prop) (g : Z * A -> B)
    (l : list A) (k : Z) :
  (forall i x, In x l -> R x (g (i, x))) ->
  Forall2 R l (List.map g (Load.number_from k l)).
Proof.
  revert k. induction l as [| x l IH]; intros k H; simpl; constructor.
  - apply H. left. reflexivity.
  - apply IH. intros i y Hy. apply H. right. exact Hy.
Qed.

Section FactRows.

Import Calendar.

Variables (df : list NormRow) (tables : DimTables).
Variables (now_location now_type : Timestamp) (w w' : Warehouse).
Hypothesis built :
  Load.create_dimension_tables df now_location now_type w = (w', Ok tables).

Let location_ids : list (string * Z) :=
  List.map (fun d => (DimLocation.location d, DimLocation.location_id d))
           (dt_location tables).

Let type_ids : list (string * Z) :=
  List.map (fun d => (DimPropertyType.property_type d,
                      DimPropertyType.property_type_id d))
           (dt_property_type tables).

Let date_ids : list (Z * Z) :=
  List.map (fun d => (DimDate.date_id d, DimDate.date_id d)) (dt_date tables).

Let keys_of (r : NormRow) : option Z * option Z * option Z :=
  (option_map snd (List.find (fun kv => String.eqb (location (cols r)) (fst kv))
                             location_ids),
   option_map snd (List.find (fun kv => String.eqb (property_type (cols r)) (fst kv))
                             type_ids),
   option_map snd (List.find (fun kv => Z.eqb (strftime_Ymd_int (list_date (cols r)))
                                              (fst kv))
                             date_ids)).

(** The fact frame is the batch itself, row by row, with the three keys
    looked up and the rows numbered. *)
Lemma fact_rows_lookup :
  Load.fact_rows df tables
  = List.map (fun ir => let '(l, t, d) := keys_of (snd ir) in
                        Load.fact_row (fst ir) (snd ir, l, t, d))
             (Load.number_from 1 df).
Proof.
  destruct (dimension_keys_unique _ _ _ _ _ _ built) as (Nl & _ & Nt & _ & Nd & _).
  unfold Load.fact_rows. fold location_ids. fold type_ids. fold date_ids.
  rewrite (merge_left_lookup _ _ _ String.eqb _ String.eqb_eq location_ids).
  2:{ unfold location_ids. rewrite List.map_map. exact Nl. }
  rewrite (merge_left_lookup _ _ _ String.eqb _ String.eqb_eq type_ids).
  2:{ unfold type_ids. rewrite List.map_map. exact Nt. }
  rewrite (merge_left_lookup _ _ _ Z.eqb _ Z.eqb_eq date_ids).
  2:{ unfold date_ids. rewrite List.map_map. exact Nd. }
  rewrite !List.map_map, number_from_map, List.map_map.
  apply List.map_ext. intros [i r]. reflexivity.
Qed.

End FactRows.

Lemma find_key_defined (A : Type) (key : A -> string) (value : A -> Z)
    (l : list A) (k : string) :
  In k (List.map key l) ->
  exists d,
    In d l /\ key d = k
    /\ option_map snd (List.find (fun kv => String.eqb k (fst kv))
                                 (List.map (fun d => (key d, value d)) l))
       = Some (value d).
Proof.
  intros Hin.
  destruct (List.find (fun kv => String.eqb k (fst kv))
                      (List.map (fun d => (key d, value d)) l)) as [kv |] eqn:E.
  - apply find_some in E. destruct E as [Hkv Ek].
    apply in_map_iff in Hkv. destruct Hkv as (d & <- & Hd).
    simpl in Ek. apply String.eqb_eq in Ek. exists d. repeat split; auto.
  - exfalso. apply in_map_iff in Hin. destruct Hin as (d & <- & Hd).
    pose proof (find_none _ _ E (key d, value d)
                  (in_map (fun d => (key d, value d)) _ _ Hd)) as N.
    simpl in N. rewrite String.eqb_refl in N. discriminate N.
Qed.

(** X3.  The fact frame built with the dimension tables of the same batch
    has exactly one row for each row of the batch, in the same order and
    numbered 1, 2, ...; a fact row carries the measures of its listing, the
    surrogate keys of the dimension rows with the listing's location and
    property type, and, when it has a date key, the YYYYMMDD number of its
    own list date. *)
Theorem fact_rows_follow_batch (df : list NormRow) (tables : DimTables)
    (now_location now_type : Calendar.Timestamp) (w w' : Warehouse) :
  Load.create_dimension_tables df now_location now_type w = (w', Ok tables) ->
  List.map Fact.listing_id (Load.fact_rows df tables)
    = List.map (fun i => (1 + Z.of_nat i)%Z) (seq 0 (List.length df))
  /\ Forall2
       (fun r f =>
          Fact.list_date f = list_date (cols r)
          /\ Fact.price f = price (cols r)
          /\ Fact.sqft f = sqft (cols r)
          /\ Fact.bedrooms f = bedrooms (cols r)
          /\ Fact.bathrooms f = bathrooms (cols r)
          /\ Fact.price_per_sqft f = price_per_sqft r
          /\ (exists d, In d (dt_location tables)
                        /\ DimLocation.location d = location (cols r)
                        /\ Fact.location_id f = Some (DimLocation.location_id d))
          /\ (exists d, In d (dt_property_type tables)
                        /\ DimPropertyType.property_type d = property_type (cols r)
                        /\ Fact.property_type_id f
                           = Some (DimPropertyType.property_type_id d))
          /\ (forall k, Fact.date_id f = Some k ->
                        k = Calendar.strftime_Ymd_int (list_date (cols r))
                        /\ In k (List.map DimDate.date_id (dt_date tables))))
       df (Load.fact_rows df tables).
Proof.
  intros H. rewrite (fact_rows_lookup _ _ _ _ _ _ H).
  destruct (dimension_keys_unique _ _ _ _ _ _ H) as (_ & _ & _ & _ & _ & Hall).
  split.
  - rewrite List.map_map, <- number_from_fst.
    apply List.map_ext. intros [i r]. reflexivity.
  - apply number_from_Forall2. intros i r Hr. cbn [fst snd Load.fact_row].
    destruct (Hall r Hr) as [Hl Ht].
    destruct (find_key_defined _ DimLocation.location DimLocation.location_id
                _ _ Hl) as (dl & Hdl & El & Fl).
    destruct (find_key_defined _ DimPropertyType.property_type
                DimPropertyType.property_type_id _ _ Ht) as (dt & Hdt & Et & Ft).
    rewrite Fl, Ft. cbn [Fact.list_date Fact.price Fact.sqft Fact.bedrooms
                           Fact.bathrooms Fact.price_per_sqft Fact.location_id
                           Fact.property_type_id Fact.date_id].
    do 6 (split; [reflexivity |]).
    split; [exists dl; repeat split; assumption |].
    split; [exists dt; repeat split; assumption |].
    intros k Hk.
    match type of Hk with
    | option_map snd ?x = _ => destruct x as [kv |] eqn:E; [| discriminate Hk]
    end.
    apply find_some in E. destruct E as [Hkv Ek].
    simpl in Hk. injection Hk as <-. apply Z.eqb_eq in Ek.
    apply in_map_iff in Hkv. destruct Hkv as (d & <- & Hd). simpl in *.
    split; [symmetry; exact Ek |]. apply in_map. exact Hd.
Qed.

Lemma fact_rows_follow_batch_witness :
  List.map Fact.listing_id
    (Load.fact_rows Samples.two_days_normalized
       (mkDimTables (Load.location_rows Samples.two_days_normalized 3%Z)
          (Load.property_type_rows Samples.two_days_normalized 4%Z)
          (Load.date_rows (Calendar.ymd_hms 19737 12 0 0)
                          (Calendar.ymd_hms 19738 6 0 0))))
  = [1%Z; 2%Z].
Proof.
  exact (proj1 (fact_rows_follow_batch _ _ _ _ _ _ two_days_tables)).
Defined.

Lemma create_dimension_tables_warehouse (df : list NormRow)
    (now_location now_type : Calendar.Timestamp) (w w' : Warehouse)
    (tables : DimTables) :
  Load.create_dimension_tables df now_location now_type w = (w', Ok tables) ->
  w' = mkWarehouse (dt_location tables) (dt_property_type tables) (dt_date tables)
                   (fact_listings w)
  /\ df <> [].
Proof.
  unfold Load.create_dimension_tables.
  destruct (Calendar.minimum _) as [lo |] eqn:Elo; [| discriminate].
  destruct (Calendar.maximum _) as [hi |]; [| discriminate].
  intros H. injection H as <- <-. split; [reflexivity |].
  intros ->. discriminate Elo.
Qed.

Lemma fact_rows_ids (df : list NormRow) (tables : DimTables)
    (now_location now_type : Calendar.Timestamp) (w w' : Warehouse) :
  Load.create_dimension_tables df now_location now_type w = (w', Ok tables) ->
  List.map Fact.listing_id (Load.fact_rows df tables)
  = List.map (fun i => (1 + Z.of_nat i)%Z) (seq 0 (List.length df)).
Proof.
  intros H. rewrite (fact_rows_lookup _ _ _ _ _ _ H).
  rewrite List.map_map, <- number_from_fst.
  apply List.map_ext. intros [i r]. reflexivity.
Qed.

Lemma fact_rows_length (df : list NormRow) (tables : DimTables)
    (now_location now_type : Calendar.Timestamp) (w w' : Warehouse) :
  Load.create_dimension_tables df now_location now_type w = (w', Ok tables) ->
  List.length (Load.fact_rows df tables) = List.length df.
Proof.
  intros H. rewrite <- (List.length_map Fact.listing_id).
  rewrite (fact_rows_ids _ _ _ _ _ _ H), List.length_map. apply List.length_seq.
Qed.

Lemma NoDup_app_disjoint (A : Type) (l1 l2 : list A) (x : A) :
  NoDup (l1 ++ l2) -> In x l1 -> In x l2 -> False.
Proof.
  induction l1 as [| a l1 IH]; simpl; [intros _ [] |].
  intros N [-> | H1] H2; inversion N as [| ? ? Na Nl]; subst.
  - apply Na. apply in_or_app. right. exact H2.
  - exact (IH Nl H1 H2).
Qed.

(** * Further properties of the storage trigger *)

Section Invocations.

Import Calendar.

Variable download_as_text : string -> string -> result string.
Variable read_csv : string -> result Csv.
Variable utcnow : nat -> Timestamp.

Let extract_transform : Event -> result (list NormRow) :=
  EtlMain.extract_transform download_as_text read_csv utcnow.

Let process_csv : Event -> Warehouse -> Warehouse * result (string * Z) :=
  EtlMain.process_csv download_as_text read_csv utcnow.

(** The frame handed to the loader has a row. *)
Lemma extract_transform_nonempty (event : Event) (df : list NormRow) :
  extract_transform event = Ok df -> df <> [].
Proof.
  unfold extract_transform, EtlMain.extract_transform.
  destruct (download_as_text _ _) as [content |]; cbn [bind]; [| discriminate].
  change (lookup_global EtlMain.module_globals "pd") with (Ok tt).
  change (lookup_global EtlMain.module_globals "io") with (Ok tt).
  cbn [bind]. destruct (read_csv content) as [csv |]; cbn [bind]; [| discriminate].
  destruct (missing_columns _ _); [| discriminate].
  intros H. apply normalize_dataframe_inv in H. tauto.
Qed.

(** What an invocation that returns has done. *)
Lemma process_csv_returns (event : Event) (w w' : Warehouse) (r : string * Z) :
  process_csv event w = (w', Ok r) ->
  (endswith (lower (name event)) ".csv" = false
   /\ w' = w /\ r = ("Not a CSV file", 200%Z))
  \/ (endswith (lower (name event)) ".csv" = true
      /\ r = ("Success", 200%Z)
      /\ exists df tables w1,
           extract_transform event = Ok df
           /\ Load.create_dimension_tables df (utcnow 2%nat) (utcnow 3%nat) w
              = (w1, Ok tables)
           /\ w' = mkWarehouse (dt_location tables) (dt_property_type tables)
                     (dt_date tables)
                     (fact_listings w ++ Load.fact_rows df tables)).
Proof.
  unfold process_csv, EtlMain.process_csv.
  destruct (endswith (lower (name event)) ".csv"); cbn [negb].
  - fold (extract_transform event).
    destruct (extract_transform event) as [df |] eqn:E; [| discriminate].
    destruct (Load.create_dimension_tables df (utcnow 2%nat) (utcnow 3%nat) w)
      as [w1 [tables |]] eqn:C; [| discriminate].
    destruct (create_dimension_tables_warehouse _ _ _ _ _ _ C) as [Hw1 _].
    unfold Load.load_fact_table. cbn iota beta.
    intros H. injection H as <- <-. right.
    split; [reflexivity |]. split; [reflexivity |].
    exists df, tables, w1. split; [reflexivity |]. split; [exact C |].
    rewrite Hw1. reflexivity.
  - intros H. injection H as <- <-. left. repeat split.
Qed.


End Invocations.



(** X5.  An invocation that answers "Success" has normalised a frame with
    at least one row, replaced the three dimension tables by those built
    from that frame, whatever they held before, and appended one fact row
    for each row of the frame to the fact table, keeping the rows that were
    there. *)
Theorem successful_invocation_effect
    (download_as_text : string -> string -> result string)
    (read_csv : string -> result Csv) (utcnow : nat -> Calendar.Timestamp)
    (event : Event) (w w' : Warehouse) :
  EtlMain.process_csv download_as_text read_csv utcnow event w
    = (w', Ok ("Success", 200%Z)) ->
  exists df lo hi,
    EtlMain.extract_transform download_as_text read_csv utcnow event = Ok df
    /\ df <> []
    /\ Calendar.minimum (List.map (fun r => list_date (cols r)) df) = Some lo
    /\ Calendar.maximum (List.map (fun r => list_date (cols r)) df) = Some hi
    /\ dim_location w' = Load.location_rows df (utcnow 2%nat)
    /\ dim_property_type w' = Load.property_type_rows df (utcnow 3%nat)
    /\ dim_date w' = Load.date_rows lo hi
    /\ (exists facts, fact_listings w' = (fact_listings w ++ facts)%list
                      /\ List.length facts = List.length df).
Proof.
  intros H. apply process_csv_returns in H.
  destruct H as [(_ & _ & H) | (_ & _ & df & tables & w1 & E & C & ->)];
    [discriminate H |].
  destruct (create_dimension_tables_inv df _ _ _ _ _ C) as (lo & hi & Elo & Ehi & Et).
  exists df, lo, hi. split; [exact E |].
  split; [exact (extract_transform_nonempty _ _ _ _ _ E) |].
  split; [exact Elo |]. split; [exact Ehi |].
  rewrite Et. cbn [dim_location dim_property_type dim_date fact_listings
                   dt_location dt_property_type dt_date].
  do 3 (split; [reflexivity |]).
  eexists. split; [reflexivity |].
  rewrite <- Et. exact (fact_rows_length _ _ _ _ _ _ C).
Qed.

Lemma successful_invocation_effect_witness :
  exists w,
    EtlMain.process_csv Samples.download_ok (Samples.read_as Samples.scenario1)
      Samples.clock Samples.upload Samples.empty_warehouse
    = (w, Ok ("Success", 200%Z))
    /\ dim_location w = Load.location_rows [Samples.scenario1_row] 3%Z.
Proof.
  eexists. 
  assert (H : EtlMain.process_csv Samples.download_ok
                (Samples.read_as Samples.scenario1) Samples.clock Samples.upload
                Samples.empty_warehouse
              = (fst (EtlMain.process_csv Samples.download_ok
                        (Samples.read_as Samples.scenario1) Samples.clock
                        Samples.upload Samples.empty_warehouse),
                 Ok ("Success", 200%Z)))
    by (vm_compute; reflexivity).
  split; [exact H |].
  destruct (successful_invocation_effect _ _ _ _ _ _ H)
    as (df & lo & hi & E & _ & _ & _ & L & _).
  rewrite L. f_equal.
  assert (E' : EtlMain.extract_transform Samples.download_ok
                 (Samples.read_as Samples.scenario1) Samples.clock Samples.upload
               = Ok [Samples.scenario1_row]) by (vm_compute; reflexivity).
  congruence.
Defined.

(** X6.  The listing ids restart at 1 with every batch: after two
    successful invocations the fact table holds the rows it had, then the
    rows of the first batch numbered from 1, then those of the second
    batch numbered from 1 again, so that its listing ids are not distinct. *)
Theorem listing_ids_restart
    (download_as_text : string -> string -> result string)
    (read_csv : string -> result Csv)
    (utcnow utcnow' : nat -> Calendar.Timestamp)
    (event event' : Event) (w w1 w2 : Warehouse) :
  EtlMain.process_csv download_as_text read_csv utcnow event w
    = (w1, Ok ("Success", 200%Z)) ->
  EtlMain.process_csv download_as_text read_csv utcnow' event' w1
    = (w2, Ok ("Success", 200%Z)) ->
  exists n n',
    (0 < n)%nat /\ (0 < n')%nat
    /\ List.map Fact.listing_id (fact_listings w2)
       = (List.map Fact.listing_id (fact_listings w)
          ++ List.map (fun i => (1 + Z.of_nat i)%Z) (seq 0 n)
          ++ List.map (fun i => (1 + Z.of_nat i)%Z) (seq 0 n'))%list
    /\ (NoDup (List.map Fact.listing_id (fact_listings w2)) -> False).
Proof.
  intros H H'. apply process_csv_returns in H, H'.
  destruct H as [(_ & _ & H) | (_ & _ & df & tables & v & E & C & ->)];
    [discriminate H |].
  destruct H' as [(_ & _ & H') | (_ & _ & df' & tables' & v' & E' & C' & ->)];
    [discriminate H' |].
  apply extract_transform_nonempty in E, E'.
  exists (List.length df), (List.length df').
  assert (Hn : (0 < List.length df)%nat) by (destruct df; [contradiction | simpl; lia]).
  assert (Hn' : (0 < List.length df')%nat)
    by (destruct df'; [contradiction | simpl; lia]).
  assert (Hids : List.map Fact.listing_id
                   ((fact_listings w ++ Load.fact_rows df tables)
                    ++ Load.fact_rows df' tables')
                 = (List.map Fact.listing_id (fact_listings w)
                    ++ List.map (fun i => (1 + Z.of_nat i)%Z) (seq 0 (List.length df))
                    ++ List.map (fun i => (1 + Z.of_nat i)%Z)
                                (seq 0 (List.length df')))%list).
  { rewrite !List.map_app, <- List.app_assoc.
    rewrite (fact_rows_ids _ _ _ _ _ _ C), (fact_rows_ids _ _ _ _ _ _ C').
    reflexivity. }
  cbn [fact_listings]. repeat split; try assumption.
  rewrite Hids. intros N. apply NoDup_app_remove_l in N.
  apply (NoDup_app_disjoint _ _ _ 1%Z N).
  - destruct (List.length df); [lia | left; reflexivity].
  - destruct (List.length df'); [lia | left; reflexivity].
Qed.

Lemma listing_ids_restart_witness :
  exists w1 w2,
    EtlMain.process_csv Samples.download_ok (Samples.read_as Samples.scenario1)
      Samples.clock Samples.upload Samples.empty_warehouse
    = (w1, Ok ("Success", 200%Z))
    /\ EtlMain.process_csv Samples.download_ok (Samples.read_as Samples.scenario1)
         Samples.clock Samples.upload w1
       = (w2, Ok ("Success", 200%Z))
    /\ (NoDup (List.map Fact.listing_id (fact_listings w2)) -> False).
Proof.
  eexists. eexists.
  assert (H : EtlMain.process_csv Samples.download_ok
                (Samples.read_as Samples.scenario1) Samples.clock Samples.upload
                Samples.empty_warehouse
              = (fst (EtlMain.process_csv Samples.download_ok
                        (Samples.read_as Samples.scenario1) Samples.clock
                        Samples.upload Samples.empty_warehouse),
                 Ok ("Success", 200%Z)))
    by (vm_compute; reflexivity).
  split; [exact H |].
  assert (H' : EtlMain.process_csv Samples.download_ok
                 (Samples.read_as Samples.scenario1) Samples.clock Samples.upload
                 (fst (EtlMain.process_csv Samples.download_ok
                         (Samples.read_as Samples.scenario1) Samples.clock
                         Samples.upload Samples.empty_warehouse))
               = (fst (EtlMain.process_csv Samples.download_ok
                         (Samples.read_as Samples.scenario1) Samples.clock
                         Samples.upload
                         (fst (EtlMain.process_csv Samples.download_ok
                                 (Samples.read_as Samples.scenario1) Samples.clock
                                 Samples.upload Samples.empty_warehouse))),
                  Ok ("Success", 200%Z)))
    by (vm_compute; reflexivity).
  split; [exact H' |].
  destruct (listing_ids_restart _ _ _ _ _ _ _ _ _ H H') as (n & n' & _ & _ & _ & N).
  exact N.
Defined.

(** X7.  A CSV that lacks one of the seven required columns is rejected by
    the schema check with a ValueError, whatever its rows are, and nothing
    is written. *)
Theorem missing_column_rejected
    (download_as_text : string -> string -> result string)
    (read_csv : string -> result Csv) (utcnow : nat -> Calendar.Timestamp)
    (event : Event) (w : Warehouse) (content : string) (csv : Csv) (c : string) :
  endswith (lower (name event)) ".csv" = true ->
  download_as_text (bucket event) (name event) = Ok content ->
  read_csv content = Ok csv ->
  In c EtlMain.required_columns ->
  (In c (columns csv) -> False) ->
  EtlMain.process_csv download_as_text read_csv utcnow event w
  = (w, Raise (ValueError "Missing required columns")).
Proof.
  intros Hcsv Hd Hr Hc Hn.
  assert (Hm : In c (missing_columns EtlMain.required_columns (columns csv))).
  { unfold missing_columns. apply filter_In. split; [exact Hc |].
    apply negb_true_iff. destruct (existsb (String.eqb c) (columns csv)) eqn:E;
      [| reflexivity].
    apply existsb_exists in E. destruct E as (x & Hx & Ex).
    apply String.eqb_eq in Ex. subst x. contradiction. }
  unfold EtlMain.process_csv, EtlMain.extract_transform.
  rewrite Hcsv, Hd. cbn [negb bind].
  change (lookup_global EtlMain.module_globals "pd") with (Ok tt).
  change (lookup_global EtlMain.module_globals "io") with (Ok tt).
  cbn [bind]. rewrite Hr. cbn [bind].
  destruct (missing_columns EtlMain.required_columns (columns csv));
    [destruct Hm | reflexivity].
Qed.

Lemma missing_column_rejected_witness :
  EtlMain.process_csv Samples.download_ok
    (fun _ => Ok (mkCsv ["list_date"; "location"; "price"] Samples.scenario1))
    Samples.clock Samples.upload Samples.empty_warehouse
  = (Samples.empty_warehouse, Raise (ValueError "Missing required columns")).
Proof.
  apply (missing_column_rejected Samples.download_ok
           (fun _ => Ok (mkCsv ["list_date"; "location"; "price"] Samples.scenario1))
           Samples.clock Samples.upload Samples.empty_warehouse
           "list_date,location,property_type,price,bedrooms,bathrooms,sqft"
           (mkCsv ["list_date"; "location"; "price"] Samples.scenario1) "sqft").
  - reflexivity.
  - reflexivity.
  - reflexivity.
  - vm_compute. tauto.
  - simpl. intros [H | [H | [H | []]]]; discriminate H.
Defined.

(** X8.  When no list date of the batch carries a time of day, the date
    dimension has exactly one row for every day from the earliest list
    date to the latest, and its date_id is the YYYYMMDD number of that
    day. *)
Theorem date_spine_without_times (df : list NormRow)
    (now_location now_type : Calendar.Timestamp) (w w' : Warehouse)
    (tables : DimTables) (lo hi : Calendar.Timestamp) (d : Z) :
  Load.create_dimension_tables df now_location now_type w = (w', Ok tables) ->
  (forall r, In r df -> Calendar.time_of_day (list_date (cols r)) = 0%Z) ->
  Calendar.minimum (List.map (fun r => list_date (cols r)) df) = Some lo ->
  Calendar.maximum (List.map (fun r => list_date (cols r)) df) = Some hi ->
  (Calendar.days_of lo <= d <= Calendar.days_of hi)%Z ->
  exists row,
    List.filter (fun r => (DimDate.date_id r =? Calendar.yyyymmdd d)%Z)
                (dt_date tables) = [row]
    /\ Calendar.days_of (DimDate.full_date row) = d.
Proof.
  intros H Hmid Elo Ehi Hd.
  destruct (create_dimension_tables_inv df _ _ _ _ _ H) as (lo' & hi' & Elo' & Ehi' & ->).
  assert (lo' = lo) as -> by congruence. assert (hi' = hi) as -> by congruence.
  pose proof (dates_without_time_aligned df lo hi Hmid Elo Ehi) as Ht.
  destruct (date_spine_complete df lo hi d Elo Ehi Ht Hd) as (row & Hf & Hday & _).
  exists row. split; assumption.
Qed.

Lemma with_outlier_tables :
  Load.create_dimension_tables Samples.with_outlier_normalized 3%Z 4%Z
    Samples.empty_warehouse
  = (mkWarehouse (Load.location_rows Samples.with_outlier_normalized 3%Z)
       (Load.property_type_rows Samples.with_outlier_normalized 4%Z)
       (Load.date_rows (Calendar.midnight 19737) (Calendar.midnight 19740)) [],
     Ok (mkDimTables (Load.location_rows Samples.with_outlier_normalized 3%Z)
           (Load.property_type_rows Samples.with_outlier_normalized 4%Z)
           (Load.date_rows (Calendar.midnight 19737) (Calendar.midnight 19740)))).
Proof. vm_compute. reflexivity. Defined.

Lemma with_outlier_no_times (r : NormRow) :
  In r Samples.with_outlier_normalized ->
  Calendar.time_of_day (list_date (cols r)) = 0%Z.
Proof. intros [<- | [<- | [<- | [<- | []]]]]; reflexivity. Defined.

Lemma date_spine_without_times_witness :
  exists row,
    List.filter (fun r => (DimDate.date_id r =? Calendar.yyyymmdd 19738)%Z)
                (Load.date_rows (Calendar.midnight 19737) (Calendar.midnight 19740))
    = [row]
    /\ Calendar.days_of (DimDate.full_date row) = 19738%Z.
Proof.
  refine (date_spine_without_times _ _ _ _ _ _ (Calendar.midnight 19737)
            (Calendar.midnight 19740) 19738%Z with_outlier_tables
            with_outlier_no_times _ _ _).
  - reflexivity.
  - reflexivity.
  - vm_compute. split; discriminate.
Defined.

(** X9.  When no list date of the batch carries a time of day, every fact
    row built with the dimension tables of the same batch has its three
    foreign keys: no join misses. *)
Theorem fact_keys_without_times (df : list NormRow)
    (now_location now_type : Calendar.Timestamp) (w w' : Warehouse)
    (tables : DimTables) (f : Fact.row) :
  Load.create_dimension_tables df now_location now_type w = (w', Ok tables) ->
  (forall r, In r df -> Calendar.time_of_day (list_date (cols r)) = 0%Z) ->
  In f (Load.fact_rows df tables) ->
  exists l t d,
    Fact.location_id f = Some l /\ Fact.property_type_id f = Some t
    /\ Fact.date_id f = Some d.
Proof.
  intros H Hmid Hf.
  destruct (fact_location_and_type_resolved df tables _ _ _ _ H f Hf) as [Hl Ht].
  assert (Hd : Fact.date_id f <> None).
  { apply (fact_date_resolved df tables _ _ _ _ H f); [| exact Hf].
    intros lo hi. apply dates_without_time_aligned. exact Hmid. }
  destruct (Fact.location_id f) as [l |]; [| contradiction].
  destruct (Fact.property_type_id f) as [t |]; [| contradiction].
  destruct (Fact.date_id f) as [d |]; [| contradiction].
  exists l, t, d. repeat split.
Qed.

Lemma fact_keys_without_times_witness :
  exists f l t d,
    In f (Load.fact_rows Samples.with_outlier_normalized
            (mkDimTables (Load.location_rows Samples.with_outlier_normalized 3%Z)
               (Load.property_type_rows Samples.with_outlier_normalized 4%Z)
               (Load.date_rows (Calendar.midnight 19737) (Calendar.midnight 19740))))
    /\ Fact.location_id f = Some l /\ Fact.property_type_id f = Some t
    /\ Fact.date_id f = Some d.
Proof.
  eexists.
  assert (Hf : In (Load.fact_row 1 (Samples.cheapest_row, Some 1%Z, Some 1%Z,
                                    Some 20240115%Z))
                  (Load.fact_rows Samples.with_outlier_normalized
                     (mkDimTables
                        (Load.location_rows Samples.with_outlier_normalized 3%Z)
                        (Load.property_type_rows Samples.with_outlier_normalized 4%Z)
                        (Load.date_rows (Calendar.midnight 19737)
                                        (Calendar.midnight 19740)))))
    by (left; vm_compute; reflexivity).
  destruct (fact_keys_without_times _ _ _ _ _ _ _ with_outlier_tables
              with_outlier_no_times Hf) as (l & t & d & Hk).
  exists l, t, d. split; [exact Hf | exact Hk].
Defined.

(** * Further properties of the analytics function *)

Lemma failed_query_gives_500_witness :
  In "monthly_trends" Analytics.queries
  /\ exists msg,
       Analytics.generate_report
         (fun q => if String.eqb q "monthly_trends"
                   then Raise (ExternalError "404 Not found: Table dim_date")
                   else Ok [Samples.one_record])
         "20240115_120000" Samples.upload_ok []
       = ([], (Analytics.Error msg, 500%Z)).
Proof.
  assert (H : In "monthly_trends" Analytics.queries) by (right; left; reflexivity).
  split; [exact H |].
  exact (failed_query_gives_500
           (fun q => if String.eqb q "monthly_trends"
                     then Raise (ExternalError "404 Not found: Table dim_date")
                     else Ok [Samples.one_record])
           "20240115_120000" Samples.upload_ok "monthly_trends"
           (ExternalError "404 Not found: Table dim_date") [] H eq_refl).
Defined.

Section ReportResponse.

Import Analytics.

Variable run_query : string -> result (list record).
Variable timestamp : string.
Variable upload_from_string : string -> blob -> result unit.
Variable store : list (string * blob).

Let res : results := execute_analytical_queries run_query.
Let html_name : string := "reports/analytics_report_" ++ timestamp ++ ".html".
Let json_name : string := "reports/analytics_data_" ++ timestamp ++ ".json".
Let response : list (string * blob) * (response * Z) :=
  generate_report run_query timestamp upload_from_string store.

(** X11.  The response of generate_report has status 200 or 500.  It has
    status 200 exactly when the report is rendered and both uploads
    succeed; the bucket then holds the HTML report and the JSON report
    after the objects it held, and the response counts eight queries. *)
Theorem report_status :
  (snd (snd response) = 200%Z \/ snd (snd response) = 500%Z)
  /\ (snd (snd response) = 200%Z <->
      exists html,
        generate_html_report res timestamp = Ok html
        /\ upload_from_string html_name (HtmlBlob html) = Ok tt
        /\ upload_from_string json_name (JsonBlob timestamp 8 res) = Ok tt)
  /\ (forall html,
        generate_html_report res timestamp = Ok html ->
        upload_from_string html_name (HtmlBlob html) = Ok tt ->
        upload_from_string json_name (JsonBlob timestamp 8 res) = Ok tt ->
        response
        = ((store ++ [(html_name, HtmlBlob html);
                      (json_name, JsonBlob timestamp 8 res)])%list,
           (Success timestamp html_name json_name 8, 200%Z))).
Proof.
  unfold response, generate_report, try_generate_report.
  fold res. fold html_name. fold json_name.
  change (List.length res) with 8%nat.
  destruct (generate_html_report res timestamp) as [html | e].
  2:{ cbn [fst snd]. split; [right; reflexivity |]. split.
      - split; [discriminate | intros (h & H & _); discriminate H].
      - intros h H. discriminate H. }
  destruct (upload_from_string html_name (HtmlBlob html)) as [[] | e] eqn:U1.
  2:{ cbn [fst snd]. split; [right; reflexivity |]. split.
      - split; [discriminate |]. intros (h & H & U & _).
        injection H as <-. rewrite U1 in U. discriminate U.
      - intros h H U. injection H as <-. rewrite U1 in U. discriminate U. }
  destruct (upload_from_string json_name (JsonBlob timestamp 8 res)) as [[] | e] eqn:U2.
  2:{ cbn [fst snd]. split; [right; reflexivity |]. split.
      - split; [discriminate |]. intros (h & H & _ & U). discriminate U.
      - intros h H _ U. discriminate U. }
  cbn [fst snd]. split; [left; reflexivity |]. split.
  - split; [| reflexivity]. intros _. exists html. repeat split; assumption.
  - intros h H _ _. injection H as <-. rewrite <- List.app_assoc. reflexivity.
Qed.

(** X12.  When the HTML report has been uploaded and the upload of the
    JSON report fails, the response is an error with status 500 although
    the HTML report stays in the bucket. *)
Theorem json_upload_failure_keeps_html (html : report) (e : exn) :
  generate_html_report res timestamp = Ok html ->
  upload_from_string html_name (HtmlBlob html) = Ok tt ->
  upload_from_string json_name (JsonBlob timestamp 8 res) = Raise e ->
  response = ((store ++ [(html_name, HtmlBlob html)])%list,
              (Error (str_exn e), 500%Z)).
Proof.
  intros H U1 U2. unfold response, generate_report, try_generate_report.
  fold res. fold html_name. fold json_name.
  change (List.length res) with 8%nat.
  rewrite H, U1, U2. reflexivity.
Qed.

Lemma mapM_raises (A B : Type) (f : A -> result B) (l : list A) (x : A) (e : exn) :
  In x l -> f x = Raise e -> exists e', mapM f l = Raise e'.
Proof.
  induction l as [| a l IH]; simpl; [intros [] |].
  intros [-> | Hin] Hx.
  - rewrite Hx. eexists. reflexivity.
  - destruct (f a); [| eexists; reflexivity]. cbn [bind].
    destruct (IH Hin Hx) as (e' & ->). eexists. reflexivity.
Qed.

(** X13.  [stats.get(key, 0)] supplies 0 only for a key that is absent:
    when the first record of the summary holds None for one of the five
    metrics, formatting it raises and the response is an error with status
    500, with nothing written. *)
Theorem null_metric_gives_500 (stats : record) (rest : list record)
    (key prefix : string) :
  run_query "summary_stats" = Ok (stats :: rest) ->
  In (key, prefix) metrics ->
  lookup key stats = Some VNull ->
  exists msg, response = (store, (Error msg, 500%Z)).
Proof.
  intros Hq Hin Hnull.
  assert (Hm : metric stats (key, prefix)
               = Raise (TypeError "unsupported format string passed to NoneType.__format__")).
  { unfold metric. rewrite Hnull. destruct (String.eqb prefix ""); reflexivity. }
  destruct (mapM_raises _ _ (metric stats) metrics _ _ Hin Hm) as (e' & Hraise).
  assert (Hl : lookup "summary_stats" res = Some (Records (stats :: rest))).
  { unfold res. rewrite (execute_records run_query "summary_stats" (or_introl eq_refl)).
    rewrite Hq. reflexivity. }
  exists (str_exn e'). unfold response, generate_report, try_generate_report.
  fold res. unfold generate_html_report.
  unfold when_present at 1. rewrite Hl. cbn [truthy first bind].
  rewrite Hraise. reflexivity.
Qed.

End ReportResponse.

Lemma json_upload_failure_keeps_html_witness :
  exists html,
    Analytics.generate_html_report
      (Analytics.execute_analytical_queries Samples.all_succeed) "20240115_120000"
    = Ok html
    /\ Analytics.generate_report Samples.all_succeed "20240115_120000"
         Samples.upload_html_only []
       = ([("reports/analytics_report_20240115_120000.html", Analytics.HtmlBlob html)],
          (Analytics.Error "503 Service Unavailable", 500%Z)).
Proof.
  eexists.
  assert (H : Analytics.generate_html_report
                (Analytics.execute_analytical_queries Samples.all_succeed)
                "20240115_120000"
              = Ok (match Analytics.generate_html_report
                            (Analytics.execute_analytical_queries Samples.all_succeed)
                            "20240115_120000" with
                    | Ok h => h
                    | Raise _ => Analytics.mkReport "" []
                    end)) by (vm_compute; reflexivity).
  split; [exact H |].
  exact (json_upload_failure_keeps_html Samples.all_succeed "20240115_120000"
           Samples.upload_html_only [] _ (ExternalError "503 Service Unavailable")
           H eq_refl eq_refl).
Defined.

Lemma null_metric_gives_500_witness :
  exists msg,
    Analytics.generate_report Samples.empty_table "20240115_120000"
      Samples.upload_ok []
    = ([], (Analytics.Error msg, 500%Z)).
Proof.
  exact (null_metric_gives_500 Samples.empty_table "20240115_120000"
           Samples.upload_ok [] Samples.empty_summary [] "avg_price" "$"
           eq_refl (or_intror (or_introl eq_refl)) eq_refl).
Defined.

Section ReportLayout.

Import Analytics.

Lemma when_present_heading (res : results) (query_name h : string)
    (body : entry -> result section) (l : list section) :
  (forall e s, body e = Ok s -> heading s = h) ->
  when_present res query_name body = Ok l ->
  List.map heading l = if Queries.has_entry res query_name then [h] else [].
Proof.
  intros Hbody. unfold when_present, Queries.has_entry.
  destruct (lookup query_name res) as [e |].
  - destruct (truthy e).
    + destruct (body e) as [s |] eqn:E; cbn [bind]; [| discriminate].
      intros H. injection H as <-. simpl. rewrite (Hbody e s E). reflexivity.
    + intros H. injection H as <-. reflexivity.
  - intros H. injection H as <-. reflexivity.
Qed.

Ltac heading_of_body :=
  let e := fresh "e" in
  let s := fresh "s" in
  let H := fresh "H" in
  intros e s H; cbv beta in H;
  repeat match type of H with
         | bind ?x _ = Ok _ => destruct x; cbn [bind] in H; [| discriminate H]
         end;
  injection H as <-; cbn [heading]; reflexivity.

(** X14.  A rendered report has its sections in one fixed order, and has
    the section of a query exactly when [results] holds at least one
    record for it: a query that returned no row has no section. *)
Theorem report_sections_in_order (res : results) (timestamp : string)
    (rep : report) :
  generate_html_report res timestamp = Ok rep ->
  generated rep = timestamp
  /\ List.map heading (sections rep)
     = List.map snd (List.filter (fun qh => Queries.has_entry res (fst qh))
                                 Queries.report_sections).
Proof.
  unfold generate_html_report.
  repeat match goal with
         | |- bind (when_present res ?n ?b) _ = Ok _ -> _ =>
             let l := fresh "l" in
             let E := fresh "E" in
             destruct (when_present res n b) as [l |] eqn:E;
             cbn [bind]; [| discriminate]
         end.
  intros H. injection H as <-. cbn [generated sections]. split; [reflexivity |].
  rewrite !List.map_app.
  repeat match goal with
         | E : when_present res ?n ?b = Ok ?l |- _ =>
             erewrite (when_present_heading res n _ b l);
             [| heading_of_body | exact E]; clear E
         end.
  unfold Queries.report_sections. cbn [List.filter fst snd].
  repeat match goal with
         | |- context [Queries.has_entry res ?n] =>
             destruct (Queries.has_entry res n)
         end; reflexivity.
Qed.

End ReportLayout.

Lemma report_sections_in_order_witness :
  exists rep,
    Analytics.generate_html_report
      (Analytics.execute_analytical_queries
         (fun q => if String.eqb q "monthly_trends" then Ok [] else Ok [Samples.one_record]))
      "20240115_120000" = Ok rep
    /\ List.map Analytics.heading (Analytics.sections rep)
       = ["Summary Statistics"; "Location Performance"; "Property Type Distribution";
          "Price Correlation Analysis"; "Top 10 Most Expensive Listings";
          "Market Segmentation by Price"; "Inventory by Bedroom Count"].
Proof.
  eexists.
  assert (H : Analytics.generate_html_report
                (Analytics.execute_analytical_queries
                   (fun q => if String.eqb q "monthly_trends" then Ok []
                             else Ok [Samples.one_record]))
                "20240115_120000"
              = Ok (match Analytics.generate_html_report
                            (Analytics.execute_analytical_queries
                               (fun q => if String.eqb q "monthly_trends" then Ok []
                                         else Ok [Samples.one_record]))
                            "20240115_120000" with
                    | Ok h => h
                    | Raise _ => Analytics.mkReport "" []
                    end)) by (vm_compute; reflexivity).
  split; [exact H |].
  rewrite (proj2 (report_sections_in_order _ _ _ H)). reflexivity.
Defined.
